(** * make/patch_meta.py: the importlib.metadata runtime hook

    A shallow embedding of [src/make/patch_meta.py] and the properties of
    its two components:

    - [load_exclude_packages_and_versions], which reads the excludes list
      and the requirements list and builds the fake version dictionary;
    - [patch_importlib_metadata], which replaces [metadata.version] and
      [metadata.distribution] by closures over that dictionary.

    Modelling conventions.

    - A Python [str] is a [string]; its characters stand for the code
      points U+0000..U+00FF, on which [str.lower] and [str.strip] act
      character by character.
    - A text file is what iterating over the open file yields: a list of
      lines (each may still carry its line terminator), or an exception
      raised by [open], or an exception raised after a prefix of the lines.
    - A [dict] is an association list in insertion order with unique keys
      (Python dictionaries iterate in insertion order, and the patched
      lookups iterate over the dictionary).
    - A [set] is the duplicate-free list of its elements; the order in which
      a [for] loop visits it is not specified by Python and is a parameter
      ([SetOrder]).
    - Effects are explicit: a computation returns the events it caused
      (lines printed, calls that reached the real registry) and either a
      value or the exception it raised. *)

From Stdlib Require Import String Ascii List Bool Arith Permutation.
Import ListNotations.
Open Scope string_scope.
Open Scope list_scope.

(** * The program *)

(** ** Python strings *)

Module Str.

(** [c.isspace()] for a code point below 256. *)
Definition isspace (c : ascii) : bool :=
  let n := nat_of_ascii c in
  (((9 <=? n) && (n <=? 13)) || ((28 <=? n) && (n <=? 32))
   || (n =? 133) || (n =? 160))%nat.

(** [c.lower()] for a code point below 256. *)
Definition lower_char (c : ascii) : ascii :=
  let n := nat_of_ascii c in
  if (((65 <=? n) && (n <=? 90))
      || ((192 <=? n) && (n <=? 222) && negb (n =? 215)))%nat
  then ascii_of_nat (n + 32) else c.

Fixpoint map (f : ascii -> ascii) (s : string) : string :=
  match s with
  | EmptyString => EmptyString
  | String c s' => String (f c) (map f s')
  end.

(** [s.lower()] *)
Definition lower (s : string) : string := map lower_char s.

(** [s.replace(a, b)] for one-character [a] and [b]. *)
Definition replace_char (a b : ascii) (s : string) : string :=
  map (fun c => if Ascii.eqb c a then b else c) s.

Fixpoint lstrip (s : string) : string :=
  match s with
  | EmptyString => EmptyString
  | String c s' => if isspace c then lstrip s' else s
  end.

Fixpoint rstrip (s : string) : string :=
  match s with
  | EmptyString => EmptyString
  | String c s' =>
      match rstrip s' with
      | EmptyString => if isspace c then EmptyString else String c EmptyString
      | r => String c r
      end
  end.

(** [s.strip()] *)
Definition strip (s : string) : string := rstrip (lstrip s).

(** Truth value of a string: [bool(s)]. *)
Definition truthy (s : string) : bool :=
  match s with EmptyString => false | String _ _ => true end.

(** [s.startswith(p)] *)
Definition startswith (p s : string) : bool := String.prefix p s.

(** [sub in s] *)
Fixpoint contains (sub s : string) : bool :=
  String.prefix sub s
  || match s with
     | EmptyString => false
     | String _ s' => contains sub s'
     end.

Fixpoint drop (n : nat) (s : string) : string :=
  match n, s with
  | S n', String _ s' => drop n' s'
  | _, _ => s
  end.

(** [s.split(sep, 1)] for a non-empty [sep]: the text before and after the
    first occurrence of [sep], or [s] alone when there is none. *)
Fixpoint split1 (sep s : string) : list string :=
  if String.prefix sep s then [EmptyString; drop (String.length sep) s]
  else match s with
       | EmptyString => [EmptyString]
       | String c s' =>
           match split1 sep s' with
           | [] => []
           | a :: rest => String c a :: rest
           end
       end.

End Str.

(** ** Exceptions, events and the effect monad *)

Inductive exn : Type :=
| FileNotFoundError
| PermissionError
| IsADirectoryError
| UnicodeDecodeError
| ValueError
| KeyError (key : string)
| ImportError
| PackageNotFoundError (name : string)
| RuntimeError (msg : string).

Definition is_FileNotFoundError (e : exn) : bool :=
  match e with FileNotFoundError => true | _ => false end.

Inductive event : Type :=
| Print (text : string)                    (* a line written by print() *)
| RegistryVersion (dist_name : string)      (* the real metadata.version ran *)
| RegistryDistribution (dist_name : string) (* the real metadata.distribution ran *).

Inductive outcome (A : Type) : Type :=
| Return (a : A)
| Raise (e : exn).
Arguments Return {A} a.
Arguments Raise {A} e.

Definition M (A : Type) : Type := (list event * outcome A)%type.

Definition ret {A} (a : A) : M A := ([], Return a).
Definition raise {A} (e : exn) : M A := ([], Raise e).
Definition print (text : string) : M unit := ([Print text], Return tt).

Definition bind {A B} (m : M A) (k : A -> M B) : M B :=
  match m with
  | (tr, Return a) => let '(tr', r) := k a in (tr ++ tr', r)
  | (tr, Raise e) => (tr, Raise e)
  end.

(** [try: m  except <class>: h(e)] where [catches] says which exceptions
    the clause matches. *)
Definition try_except {A} (m : M A) (catches : exn -> bool) (h : exn -> M A)
  : M A :=
  match m with
  | (tr, Return a) => (tr, Return a)
  | (tr, Raise e) =>
      if catches e then let '(tr', r) := h e in (tr ++ tr', r)
      else (tr, Raise e)
  end.

Declare Scope py_scope.
Delimit Scope py_scope with py.
Notation "x <- m ;; k" := (bind m (fun x => k))
  (at level 61, m at next level, right associativity) : py_scope.
Notation "m ;;; k" := (bind m (fun _ => k))
  (at level 61, right associativity) : py_scope.
Open Scope py_scope.

(** ** Dictionaries and sets *)

Definition dict : Type := list (string * string).

(** [d.get(k)]: [None] is Python's [None]. *)
Fixpoint dict_get (d : dict) (k : string) : option string :=
  match d with
  | [] => None
  | (k', v) :: d' => if String.eqb k k' then Some v else dict_get d' k
  end.

(** [k in d] *)
Definition dict_contains (d : dict) (k : string) : bool :=
  match dict_get d k with Some _ => true | None => false end.

(** [d.get(k, default)] *)
Definition dict_get_default (d : dict) (k default : string) : string :=
  match dict_get d k with Some v => v | None => default end.

(** [d[k]] *)
Definition dict_getitem (d : dict) (k : string) : M string :=
  match dict_get d k with Some v => ret v | None => raise (KeyError k) end.

(** [d[k] = v]: an existing key keeps its position, a new key goes last. *)
Fixpoint dict_set (d : dict) (k v : string) : dict :=
  match d with
  | [] => [(k, v)]
  | (k', v') :: d' =>
      if String.eqb k k' then (k', v) :: d' else (k', v') :: dict_set d' k v
  end.

Definition dict_keys (d : dict) : list string := List.map fst d.

Definition pyset : Type := list string.

Definition set_contains (s : pyset) (x : string) : bool :=
  existsb (String.eqb x) s.

(** [s.add(x)] *)
Definition set_add (s : pyset) (x : string) : pyset :=
  if set_contains s x then s else s ++ [x].

(** The order in which [for x in s] visits a set. *)
Class SetOrder : Type := {
  set_iter : pyset -> list string;
  set_iter_perm : forall s, Permutation (set_iter s) s
}.

(** One possible order: the order of insertion. *)
Definition insertion_order : SetOrder :=
  {| set_iter := fun s => s; set_iter_perm := fun s => Permutation_refl s |}.

(** Another one: the reverse of it. *)
Definition reverse_order : SetOrder :=
  {| set_iter := fun s => rev s;
     set_iter_perm := fun s => Permutation_sym (Permutation_rev s) |}.

(** ** Files *)

Inductive source : Type :=
| Readable (lines : list string)
| OpenRaises (e : exn)
| ReadRaises (prefix : list string) (e : exn).

Record filesystem : Type := {
  Path : string -> string;       (* str(Path(p)) *)
  open : string -> source        (* open(p, 'r', encoding='utf-8') and its lines *)
}.

(** [with open(...) as f: for line in f: body]: the loop state survives an
    exception, which is what an enclosing [try] observes. *)
Fixpoint for_each {S : Type} (body : S -> string -> outcome S)
    (lines : list string) (s : S) : S * option exn :=
  match lines with
  | [] => (s, None)
  | line :: rest =>
      match body s line with
      | Return s' => for_each body rest s'
      | Raise e => (s, Some e)
      end
  end.

Definition with_open_for {S : Type} (src : source)
    (body : S -> string -> outcome S) (s : S) : S * option exn :=
  match src with
  | Readable lines => for_each body lines s
  | OpenRaises e => (s, Some e)
  | ReadRaises prefix e =>
      match for_each body prefix s with
      | (s', None) => (s', Some e)
      | r => r
      end
  end.

(** ** load_exclude_packages_and_versions *)

Definition default_version : string := "1.0.0".

(** Body of the loop over the excludes file (lines 17-19). *)
Definition excludes_line (excluded_packages : pyset) (line : string)
  : outcome pyset :=
  let line := Str.strip line in
  if Str.truthy line && negb (Str.startswith "#" line)
  then Return (set_add excluded_packages line)
  else Return excluded_packages.

(** Body of the loop over the requirements file (lines 30-33). *)
Definition requirements_line (package_versions : dict) (line : string)
  : outcome dict :=
  let line := Str.strip line in
  if Str.truthy line && negb (Str.startswith "#" line)
     && Str.contains "==" line
  then match Str.split1 "==" line with
       | [package; version] =>
           Return (dict_set package_versions (Str.strip package)
                            (Str.strip version))
       | _ => Raise ValueError
       end
  else Return package_versions.

(** A [try] block around a file loop with [except FileNotFoundError] that
    prints the warning (lines 14-21 and 27-35). *)
Definition load_or_warn {S : Type} (fs : filesystem) (file : string)
    (body : S -> string -> outcome S) (s : S) : M S :=
  match with_open_for (open fs file) body s with
  | (s', None) => ret s'
  | (s', Some e) =>
      if is_FileNotFoundError e
      then print ("Warning: " ++ file ++ " not found") ;;; ret s'
      else raise e
  end.

(** Lines 43-51: the version chosen for one excluded package.  [not version]
    holds for [None] and for the empty string. *)
Definition choose_version (package_versions : dict) (package : string)
  : string :=
  let special_case :=
    if String.eqb package "PIL"
    then dict_get_default package_versions "pillow" default_version
    else if String.eqb package "sklearn"
    then dict_get_default package_versions "scikit-learn" default_version
    else default_version in
  match dict_get package_versions package with
  | Some version => if Str.truthy version then version else special_case
  | None => special_case
  end.

(** Lines 38-61. *)
Definition build_fake_versions `{SetOrder} (excluded_packages : pyset)
    (package_versions : dict) : M dict :=
  let fake_versions :=
    fold_left (fun fake_versions package =>
                 dict_set fake_versions package
                          (choose_version package_versions package))
              (set_iter excluded_packages) [] in
  fake_versions <-
    (if dict_contains package_versions "pillow"
     then v <- dict_getitem package_versions "pillow" ;;
          ret (dict_set fake_versions "PIL" v)
     else ret fake_versions) ;;
  fake_versions <-
    (if dict_contains package_versions "scikit-learn"
     then v <- dict_getitem package_versions "scikit-learn" ;;
          ret (dict_set fake_versions "sklearn" v)
     else ret fake_versions) ;;
  ret fake_versions.

Definition load_exclude_packages_and_versions `{SetOrder} (fs : filesystem)
    (excludes_file requirements_file : string) : M dict :=
  let excludes_file := Path fs excludes_file in
  excluded_packages <- load_or_warn fs excludes_file excludes_line [] ;;
  let requirements_file := Path fs requirements_file in
  package_versions <- load_or_warn fs requirements_file requirements_line [] ;;
  build_fake_versions excluded_packages package_versions.

(** ** create_fake_distribution *)

Record FakeDistribution : Type := {
  metadata : dict;
  _name : string;
  _version : string
}.

Module FakeDistributionMethods.
(** The [name] and [version] properties and [__getitem__]. *)
Definition name (self : FakeDistribution) : string := _name self.
Definition version (self : FakeDistribution) : string := _version self.
Definition getitem (self : FakeDistribution) (key : string) : option string :=
  dict_get (metadata self) key.
End FakeDistributionMethods.

Definition create_fake_distribution (name version : string) : FakeDistribution :=
  {| metadata := dict_set (dict_set [] "Name" name) "Version" version;
     _name := name;
     _version := version |}.

(** ** patch_importlib_metadata *)

(** [dist_name.lower().replace('-', '_')] *)
Definition normalize (dist_name : string) : string :=
  Str.replace_char "-"%char "_"%char (Str.lower dist_name).

Section Interceptor.

(** What the real [metadata.distribution] returns. *)
Context {RealDistribution : Type}.

Inductive distribution_object : Type :=
| Real (d : RealDistribution)
| Fake (d : FakeDistribution).

(** The registry of the host runtime: the behaviour of the functions that
    [importlib.metadata] defines. *)
Record registry : Type := {
  registry_version : string -> outcome string;
  registry_distribution : string -> outcome RealDistribution
}.

(** Function values that [metadata.version] can hold: the function the
    module defines, or a closure created by [patch_importlib_metadata]. *)
Inductive version_fn : Type :=
| MetadataVersion
| PatchedVersion (FAKE_VERSIONS : dict) (original_version : version_fn).

Inductive distribution_fn : Type :=
| MetadataDistribution
| PatchedDistribution (FAKE_VERSIONS : dict) (original_distribution : distribution_fn).

Record metadata_module : Type := {
  version : version_fn;
  distribution : distribution_fn
}.

(** The interpreter state the hook touches: the [importlib.metadata] module,
    or [None] when importing it raises [ImportError]. *)
Definition process : Type := option metadata_module.

(** The [for fake_key in FAKE_VERSIONS] loop of both closures: the first key
    whose normalized form is [normalized_name]. *)
Definition first_normalized_key (FAKE_VERSIONS : dict) (normalized_name : string)
  : option string :=
  find (fun fake_key => String.eqb (normalize fake_key) normalized_name)
       (dict_keys FAKE_VERSIONS).

Definition is_Exception (e : exn) : bool := true.

(** Lines 79-95. *)
Definition patched_version (FAKE_VERSIONS : dict)
    (original_version : string -> M string) (dist_name : string) : M string :=
  if dict_contains FAKE_VERSIONS dist_name
  then dict_getitem FAKE_VERSIONS dist_name
  else
    let normalized_name := normalize dist_name in
    match first_normalized_key FAKE_VERSIONS normalized_name with
    | Some fake_key => dict_getitem FAKE_VERSIONS fake_key
    | None =>
        try_except (original_version dist_name) is_Exception
                   (fun e => raise e)
    end.

(** Lines 97-109. *)
Definition patched_distribution (FAKE_VERSIONS : dict)
    (original_distribution : string -> M distribution_object)
    (dist_name : string) : M distribution_object :=
  if dict_contains FAKE_VERSIONS dist_name
  then v <- dict_getitem FAKE_VERSIONS dist_name ;;
       ret (Fake (create_fake_distribution dist_name v))
  else
    let normalized_name := normalize dist_name in
    match first_normalized_key FAKE_VERSIONS normalized_name with
    | Some fake_key =>
        v <- dict_getitem FAKE_VERSIONS fake_key ;;
        ret (Fake (create_fake_distribution dist_name v))
    | None => original_distribution dist_name
    end.

Variable reg : registry.

(** Calling a function value. *)
Fixpoint call_version (f : version_fn) (dist_name : string) : M string :=
  match f with
  | MetadataVersion =>
      ([RegistryVersion dist_name], registry_version reg dist_name)
  | PatchedVersion FAKE_VERSIONS original_version =>
      patched_version FAKE_VERSIONS (call_version original_version) dist_name
  end.

Fixpoint call_distribution (f : distribution_fn) (dist_name : string)
  : M distribution_object :=
  match f with
  | MetadataDistribution =>
      ([RegistryDistribution dist_name],
       match registry_distribution reg dist_name with
       | Return d => Return (Real d)
       | Raise e => Raise e
       end)
  | PatchedDistribution FAKE_VERSIONS original_distribution =>
      patched_distribution FAKE_VERSIONS
        (call_distribution original_distribution) dist_name
  end.

End Interceptor.

Arguments distribution_object : clear implicits.
Arguments registry : clear implicits.

Definition is_ImportError (e : exn) : bool :=
  match e with ImportError => true | _ => false end.

(** Truth value of an optional path argument. *)
Definition arg_truthy (file : option string) : bool :=
  match file with Some p => Str.truthy p | None => false end.

(** Lines 66-70: [if excludes_file and requirements_file]; [None] and the
    empty string are false. *)
Definition load_FAKE_VERSIONS `{SetOrder} (fs : filesystem)
    (excludes_file requirements_file : option string) : M dict :=
  match excludes_file, requirements_file with
  | Some e, Some r =>
      if Str.truthy e && Str.truthy r
      then load_exclude_packages_and_versions fs e r
      else ret []
  | _, _ => ret []
  end.

(** Lines 72-119: returns the result and the state of the process. *)
Definition install (FAKE_VERSIONS : dict) (p : process) : M (bool * process) :=
  try_except
    (match p with
     | None => raise ImportError
     | Some metadata =>
         let original_version := version metadata in
         let original_distribution := distribution metadata in
         ret (true,
              Some {| version := PatchedVersion FAKE_VERSIONS original_version;
                      distribution :=
                        PatchedDistribution FAKE_VERSIONS original_distribution |})
     end)
    is_ImportError
    (fun _ => ret (false, p)).

Definition patch_importlib_metadata `{SetOrder} (fs : filesystem)
    (excludes_file requirements_file : option string) (p : process)
  : M (bool * process) :=
  FAKE_VERSIONS <- load_FAKE_VERSIONS fs excludes_file requirements_file ;;
  install FAKE_VERSIONS p.

(** The process before any patch: the module holds its own functions. *)
Definition unpatched : process :=
  Some {| version := MetadataVersion; distribution := MetadataDistribution |}.

(** ** The quantities the specification names *)

(** The Exclusion Set and the Version Table: the values of
    [excluded_packages] and [package_versions] when their loops end. *)
Definition exclusion_set (src : source) : pyset :=
  fst (with_open_for src excludes_line []).

Definition version_table (src : source) : dict :=
  fst (with_open_for src requirements_line []).

(** A source that is readable to the end or fails with FileNotFoundError. *)
Definition quiet (src : source) : bool :=
  match src with
  | Readable _ => true
  | OpenRaises e | ReadRaises _ e => is_FileNotFoundError e
  end.

Definition warnings (file : string) (src : source) : list event :=
  match src with
  | Readable _ => []
  | _ => [Print ("Warning: " ++ file ++ " not found")]
  end.

(** The exception a source ends with, if any. *)
Definition failure (src : source) : option exn :=
  match src with
  | Readable _ => None
  | OpenRaises e | ReadRaises _ e => Some e
  end.

(** The version the code gives an excluded name, read off the table: the
    canonical distribution's entry for the two import names when there is
    one, else the name's own non-empty entry, else the default. *)
Definition resolved_version (package_versions : dict) (name : string) : string :=
  let canonical :=
    if String.eqb name "PIL" then dict_get package_versions "pillow"
    else if String.eqb name "sklearn" then dict_get package_versions "scikit-learn"
    else None in
  match canonical with
  | Some w => w
  | None =>
      match dict_get package_versions name with
      | Some v => if Str.truthy v then v else default_version
      | None => default_version
      end
  end.

(** The resolution order as the specification words it: the name's own
    entry, else the alias's entry, else the default. *)
Definition spec_resolution (package_versions : dict) (name : string) : string :=
  match dict_get package_versions name with
  | Some v => v
  | None =>
      if String.eqb name "PIL"
      then dict_get_default package_versions "pillow" default_version
      else if String.eqb name "sklearn"
      then dict_get_default package_versions "scikit-learn" default_version
      else default_version
  end.

(** A requirement of the exact form [name==version], as the specification
    words it: a distribution name, [==], a version, and nothing else. *)
Definition is_name_char (c : ascii) : bool :=
  let n := nat_of_ascii c in
  (((48 <=? n) && (n <=? 57)) || ((65 <=? n) && (n <=? 90))
   || ((97 <=? n) && (n <=? 122)) || (n =? 45) || (n =? 46) || (n =? 95))%nat.

Definition is_version_char (c : ascii) : bool :=
  let n := nat_of_ascii c in
  (is_name_char c || (n =? 33) || (n =? 42) || (n =? 43))%nat.

Fixpoint all_chars (p : ascii -> bool) (s : string) : bool :=
  match s with
  | EmptyString => true
  | String c s' => p c && all_chars p s'
  end.

Definition is_exact_pin (line : string) : bool :=
  match Str.split1 "==" (Str.strip line) with
  | [name; ver] =>
      Str.truthy name && all_chars is_name_char name
      && Str.truthy ver && all_chars is_version_char ver
  | _ => false
  end.

(** What a lookup in the dictionary built by lines 38-59 finds. *)
Definition built_entry (X : pyset) (pv : dict) (k : string) : option string :=
  if String.eqb k "sklearn" && dict_contains pv "scikit-learn"
  then dict_get pv "scikit-learn"
  else if String.eqb k "PIL" && dict_contains pv "pillow"
  then dict_get pv "pillow"
  else if set_contains X k then Some (choose_version pv k) else None.

(** The file system in which every missing file is an empty file. *)
Definition missing_as_empty (fs : filesystem) : filesystem :=
  {| Path := Path fs;
     open := fun p =>
       match open fs p with
       | OpenRaises FileNotFoundError => Readable []
       | src => src
       end |}.

(** The key a lookup answers from: the requested name when it is a key,
    else the first key with the same normalized form. *)
Definition answering_key (FAKE_VERSIONS : dict) (dist_name : string)
  : option string :=
  if dict_contains FAKE_VERSIONS dist_name then Some dist_name
  else first_normalized_key FAKE_VERSIONS (normalize dist_name).

(** The function a closure captured as its original. *)
Definition captured_original_version (f : version_fn) : option version_fn :=
  match f with
  | MetadataVersion => None
  | PatchedVersion _ original_version => Some original_version
  end.

Definition captured_original_distribution (f : distribution_fn)
  : option distribution_fn :=
  match f with
  | MetadataDistribution => None
  | PatchedDistribution _ original_distribution => Some original_distribution
  end.

(** Events that are calls of the real registry. *)
Definition registry_calls (tr : list event) : nat :=
  length (filter (fun ev => match ev with Print _ => false | _ => true end) tr).

(** ** Example inputs *)

(** A directory holding the two lists and nothing else. *)
Definition two_files (excludes requirements : source) : filesystem :=
  {| Path := fun p => p;
     open := fun p =>
       if String.eqb p "nuitka_excludes.txt" then excludes
       else if String.eqb p "requirements.txt" then requirements
       else OpenRaises FileNotFoundError |}.

Definition nl : string := String (ascii_of_nat 10) EmptyString.

(** A line as a file yields it, with its terminator. *)
Definition ln (s : string) : string := (s ++ nl)%string.

Definition sample_files : filesystem :=
  two_files
    (Readable [ln "# heavy packages"; ln "torch"; ln "PIL"; nl;
               ln "  foo  "; "bar"])
    (Readable [ln "foo==2.3.1"; ln "pillow == 9.5.0";
               ln "torch>=2.0"; ln "# pinned"; "numpy==1.26.4"]).

Definition sklearn_twice : filesystem :=
  two_files (Readable ["sklearn"])
            (Readable ["sklearn==0.0"; "scikit-learn==1.3.0"]).

Definition pil_twice : filesystem :=
  two_files (Readable ["PIL"]) (Readable ["PIL==1.1.7"; "pillow==9.5.0"]).

Definition blank_version : filesystem :=
  two_files (Readable ["foo"]) (Readable ["foo=="]).

Definition aliases_not_excluded : filesystem :=
  two_files (Readable [ln "torch"])
            (Readable [ln "pillow==9.5.0"; ln "scikit-learn==1.3.0"]).

Definition excludes_unreadable : filesystem :=
  two_files (OpenRaises PermissionError) (Readable [ln "foo==2.3.1"]).

Definition excludes_missing : filesystem :=
  two_files (OpenRaises FileNotFoundError) (Readable [ln "pillow==9.5.0"]).

(** A registry in which nothing is installed. *)
Definition empty_registry : registry unit :=
  {| registry_version := fun name => Raise (PackageNotFoundError name);
     registry_distribution := fun name => Raise (PackageNotFoundError name) |}.

(** A registry that knows one distribution. *)
Definition numpy_registry : registry unit :=
  {| registry_version := fun name =>
       if String.eqb name "numpy" then Return "1.26.4"
       else Raise (PackageNotFoundError name);
     registry_distribution := fun name =>
       if String.eqb name "numpy" then Return tt
       else Raise (PackageNotFoundError name) |}.

Definition two_spellings : filesystem :=
  two_files (Readable [ln "scikit_learn"; ln "scikit-learn"])
            (Readable [ln "scikit-learn==1.3.0"]).

Definition underscore_key : filesystem :=
  two_files (Readable [ln "scikit_learn"]) (Readable [ln "numpy==1.26.4"]).

(** ** Statements of the specification that the code does not meet *)

(** C1 as the specification states it, at one input: the function returns,
    and the value of an excluded name follows [spec_resolution]. *)
Definition resolves_as_specified `{SetOrder} (fs : filesystem)
    (excludes_file requirements_file : string) : Prop :=
  exists tr fake,
    load_exclude_packages_and_versions fs excludes_file requirements_file
      = (tr, Return fake)
    /\ forall name,
        In name (exclusion_set (open fs (Path fs excludes_file))) ->
        dict_get fake name =
        Some (spec_resolution
                (version_table (open fs (Path fs requirements_file))) name).

(** C2 as stated, at one input: an excluded name with an entry of its own in
    the Version Table is mapped to that entry's version. *)
Definition exact_entry_wins `{SetOrder} (fs : filesystem)
    (excludes_file requirements_file : string) : Prop :=
  forall tr fake,
    load_exclude_packages_and_versions fs excludes_file requirements_file
      = (tr, Return fake) ->
    forall name v,
      In name (exclusion_set (open fs (Path fs excludes_file))) ->
      dict_get (version_table (open fs (Path fs requirements_file))) name
        = Some v ->
      dict_get fake name = Some v.

(** C5 as stated, at one input: whatever makes a source unreadable, the
    function warns and returns. *)
Definition tolerates_unreadable `{SetOrder} (fs : filesystem)
    (excludes_file requirements_file : string) : Prop :=
  failure (open fs (Path fs excludes_file)) <> None
  \/ failure (open fs (Path fs requirements_file)) <> None ->
  exists tr fake,
    load_exclude_packages_and_versions fs excludes_file requirements_file
      = (tr, Return fake)
    /\ tr <> [].

(** C8 as stated, for one line: a line that is not blank, not a comment and
    not of the exact form [name==version] adds nothing. *)
Definition inexact_line_ignored (line : string) : Prop :=
  Str.strip line <> "" ->
  Str.startswith "#" (Str.strip line) = false ->
  is_exact_pin line = false ->
  forall package_versions,
    requirements_line package_versions line = Return package_versions.

(** C9 as stated, for one dictionary, name and key: a name whose normalized
    form is that of the key gets that key's version. *)
Definition normalized_match_returns_key {RealDistribution : Type}
    (reg : registry RealDistribution) (FAKE_VERSIONS : dict)
    (name key : string) : Prop :=
  forall v,
    dict_get FAKE_VERSIONS key = Some v ->
    normalize name = normalize key ->
    call_version reg (PatchedVersion FAKE_VERSIONS MetadataVersion) name
    = ([], Return v).

(** C6 as stated, at one input: after two successful calls on a fresh
    process, the originals captured by the second call are the functions of
    the module itself. *)
Definition second_patch_captures_registry `{SetOrder} (fs : filesystem)
    (excludes1 requirements1 excludes2 requirements2 : option string) : Prop :=
  forall tr1 p1 tr2 m2,
    patch_importlib_metadata fs excludes1 requirements1 unpatched
      = (tr1, Return (true, p1)) ->
    patch_importlib_metadata fs excludes2 requirements2 p1
      = (tr2, Return (true, Some m2)) ->
    captured_original_version (version m2) = Some MetadataVersion
    /\ captured_original_distribution (distribution m2)
       = Some MetadataDistribution.

(** ** Further inputs and predicates *)

(** A text without the character [=]. *)
Definition no_equals_sign (s : string) : bool :=
  all_chars (fun c => negb (Ascii.eqb c "="%char)) s.

Definition both_missing : filesystem :=
  two_files (OpenRaises FileNotFoundError) (OpenRaises FileNotFoundError).

Definition requirements_unreadable : filesystem :=
  two_files (Readable [ln "torch"]) (ReadRaises [ln "torch==2.1.0"] UnicodeDecodeError).

Definition no_pins : filesystem :=
  two_files (Readable [ln "torch"; ln "PIL"; ln "torch"])
            (Readable [ln "# nothing pinned"; ln "torch>=2.0"]).

Definition missing_then_denied : filesystem :=
  two_files (OpenRaises FileNotFoundError) (OpenRaises PermissionError).

Definition denied_then_missing : filesystem :=
  two_files (OpenRaises PermissionError) (OpenRaises FileNotFoundError).

(** * Properties *)

(** ** Strings *)

Lemma contains_unfold sep s :
  Str.contains sep s =
  String.prefix sep s
  || match s with
     | EmptyString => false
     | String _ s' => Str.contains sep s'
     end.
Proof. destruct s; reflexivity. Qed.

Lemma split1_unfold sep s :
  Str.split1 sep s =
  if String.prefix sep s then [EmptyString; Str.drop (String.length sep) s]
  else match s with
       | EmptyString => [EmptyString]
       | String c s' =>
           match Str.split1 sep s' with
           | [] => []
           | a :: rest => String c a :: rest
           end
       end.
Proof. destruct s; reflexivity. Qed.

Lemma split1_contains sep s :
  Str.contains sep s = true -> exists a b, Str.split1 sep s = [a; b].
Proof.
  induction s as [|c s IH]; rewrite contains_unfold, split1_unfold;
    destruct (String.prefix sep _); simpl; intros Hc; eauto.
  - discriminate.
  - destruct (IH Hc) as (a & b & ->). eauto.
Qed.

Lemma split1_not_contains sep s :
  Str.contains sep s = false -> Str.split1 sep s = [s].
Proof.
  induction s as [|c s IH]; rewrite contains_unfold, split1_unfold;
    destruct (String.prefix sep _); simpl; intros Hc;
    try discriminate; try reflexivity.
  now rewrite (IH Hc).
Qed.

Lemma eqb_neq_false (a b : string) : a <> b -> String.eqb a b = false.
Proof. apply String.eqb_neq. Qed.

(** ** Dictionaries *)

Lemma dict_get_set (d : dict) k v k' :
  dict_get (dict_set d k v) k' =
  if String.eqb k' k then Some v else dict_get d k'.
Proof.
  induction d as [|[k0 v0] d IH]; simpl.
  - reflexivity.
  - destruct (String.eqb k k0) eqn:E; simpl.
    + apply String.eqb_eq in E. subst k0.
      destruct (String.eqb k' k); reflexivity.
    + destruct (String.eqb k' k0) eqn:E'.
      * apply String.eqb_eq in E'. subst k0.
        rewrite String.eqb_sym, E. reflexivity.
      * apply IH.
Qed.

Lemma dict_get_set_eq (d : dict) k v : dict_get (dict_set d k v) k = Some v.
Proof. now rewrite dict_get_set, String.eqb_refl. Qed.

Lemma dict_get_set_ne (d : dict) k v k' :
  k' <> k -> dict_get (dict_set d k v) k' = dict_get d k'.
Proof. intros Hne. now rewrite dict_get_set, eqb_neq_false. Qed.

Lemma dict_get_In_keys (d : dict) k :
  In k (dict_keys d) <-> exists v, dict_get d k = Some v.
Proof.
  induction d as [|[k0 v0] d IH]; simpl.
  - split; [tauto | intros [v Hv]; discriminate].
  - destruct (String.eqb k k0) eqn:E.
    + apply String.eqb_eq in E. split; eauto.
    + apply String.eqb_neq in E. rewrite <- IH. split.
      * intros [?|?]; [congruence | assumption].
      * auto.
Qed.

Lemma dict_contains_true (d : dict) k :
  dict_contains d k = true <-> exists v, dict_get d k = Some v.
Proof.
  unfold dict_contains. destruct (dict_get d k).
  - split; eauto.
  - split; [discriminate | intros [v Hv]; discriminate].
Qed.

Lemma dict_getitem_Some (d : dict) k v :
  dict_get d k = Some v -> dict_getitem d k = ([], Return v).
Proof. unfold dict_getitem. now intros ->. Qed.

Lemma set_contains_In (s : pyset) x : set_contains s x = true <-> In x s.
Proof.
  unfold set_contains. rewrite existsb_exists. split.
  - intros (y & Hy & E). apply String.eqb_eq in E. now subst.
  - intros Hx. exists x. split; [assumption | apply String.eqb_refl].
Qed.

(** The loop of lines 41-53 over any visiting order. *)
Lemma fake_versions_loop (f : string -> string) (ps : list string) (d0 : dict) k :
  dict_get (fold_left (fun fv p => dict_set fv p (f p)) ps d0) k =
  if set_contains ps k then Some (f k) else dict_get d0 k.
Proof.
  revert d0. induction ps as [|p ps IH]; intros d0; simpl.
  - reflexivity.
  - rewrite IH. unfold set_contains in *.
    destruct (existsb (String.eqb k) ps) eqn:E.
    + now rewrite orb_true_r.
    + rewrite orb_false_r, dict_get_set.
      destruct (String.eqb k p) eqn:Ekp; [|reflexivity].
      apply String.eqb_eq in Ekp. now subst.
Qed.

Lemma set_iter_contains `{SetOrder} (s : pyset) x :
  set_contains (set_iter s) x = set_contains s x.
Proof.
  apply eq_true_iff_eq. rewrite !set_contains_In. split; intros Hx.
  - eapply Permutation_in; [apply set_iter_perm | exact Hx].
  - eapply Permutation_in; [apply Permutation_sym, set_iter_perm | exact Hx].
Qed.

(** ** Reading the two files *)

Lemma excludes_line_total X line : exists X', excludes_line X line = Return X'.
Proof. unfold excludes_line. destruct (_ && _); eauto. Qed.

Lemma requirements_line_total pv line :
  exists pv', requirements_line pv line = Return pv'.
Proof.
  unfold requirements_line.
  destruct (Str.truthy _ && _); simpl; [|eauto].
  destruct (Str.contains "==" (Str.strip line)) eqn:Hc; [|eauto].
  destruct (split1_contains _ _ Hc) as (a & b & ->). eauto.
Qed.

Section Loops.
Context {S : Type} (body : S -> string -> outcome S).
Hypothesis body_total : forall s line, exists s', body s line = Return s'.

Lemma for_each_total lines s : snd (for_each body lines s) = None.
Proof.
  revert s. induction lines as [|l lines IH]; intros s; simpl.
  - reflexivity.
  - destruct (body_total s l) as [s' ->]. apply IH.
Qed.

Lemma with_open_for_failure src s :
  snd (with_open_for src body s) = failure src.
Proof.
  destruct src as [lines|e|prefix e]; simpl.
  - apply for_each_total.
  - reflexivity.
  - pose proof (for_each_total prefix s) as Hp.
    destruct (for_each body prefix s) as [s' [e'|]]; [discriminate | reflexivity].
Qed.

Lemma load_or_warn_spec fs file s :
  load_or_warn fs file body s =
  match failure (open fs file) with
  | None => ([], Return (fst (with_open_for (open fs file) body s)))
  | Some e =>
      if is_FileNotFoundError e
      then ([Print ("Warning: " ++ file ++ " not found")],
            Return (fst (with_open_for (open fs file) body s)))
      else ([], Raise e)
  end.
Proof.
  unfold load_or_warn.
  rewrite <- (with_open_for_failure (open fs file) s).
  destruct (with_open_for (open fs file) body s) as [s' [e|]]; simpl;
    [destruct (is_FileNotFoundError e)|]; reflexivity.
Qed.

Lemma load_or_warn_quiet fs file s :
  quiet (open fs file) = true ->
  load_or_warn fs file body s =
  (warnings file (open fs file),
   Return (fst (with_open_for (open fs file) body s))).
Proof.
  intros Hq. rewrite load_or_warn_spec.
  destruct (open fs file) as [lines|e|prefix e]; simpl in *;
    try rewrite Hq; reflexivity.
Qed.
End Loops.

(** ** The fake version dictionary *)

Lemma build_fake_versions_spec `{SetOrder} (X : pyset) (pv : dict) :
  exists fake, build_fake_versions X pv = ([], Return fake)
    /\ forall k, dict_get fake k = built_entry X pv k.
Proof.
  unfold build_fake_versions, built_entry.
  set (loop := fold_left _ _ _).
  assert (Hloop : forall k, dict_get loop k =
            if set_contains X k then Some (choose_version pv k) else None).
  { intros k. unfold loop.
    rewrite (fake_versions_loop (choose_version pv)), set_iter_contains.
    reflexivity. }
  unfold dict_contains, dict_getitem.
  destruct (dict_get pv "pillow") as [vp|];
    destruct (dict_get pv "scikit-learn") as [vs|]; simpl;
    eexists; (split; [reflexivity|]); intros k;
    rewrite ?dict_get_set, ?Hloop, ?andb_true_r, ?andb_false_r;
    destruct (String.eqb k "sklearn"); reflexivity.
Qed.

Lemma load_quiet `{SetOrder} fs excludes_file requirements_file :
  let ex := open fs (Path fs excludes_file) in
  let req := open fs (Path fs requirements_file) in
  quiet ex = true -> quiet req = true ->
  exists fake,
    load_exclude_packages_and_versions fs excludes_file requirements_file =
      (warnings (Path fs excludes_file) ex
         ++ warnings (Path fs requirements_file) req, Return fake)
    /\ forall k, dict_get fake k =
                 built_entry (exclusion_set ex) (version_table req) k.
Proof.
  intros ex req Hex Hreq. unfold load_exclude_packages_and_versions.
  rewrite (load_or_warn_quiet _ excludes_line_total _ _ _ Hex).
  rewrite (load_or_warn_quiet _ requirements_line_total _ _ _ Hreq).
  fold ex req.
  destruct (build_fake_versions_spec (exclusion_set ex) (version_table req))
    as (fake & Hb & Hk).
  exists fake. split; [|exact Hk].
  unfold bind, exclusion_set, version_table in *. rewrite Hb.
  now rewrite app_nil_r.
Qed.

(** [choose_version] followed by the two assignments of lines 56-59. *)
Lemma built_entry_excluded X pv name :
  In name X -> built_entry X pv name = Some (resolved_version pv name).
Proof.
  intros Hin. apply set_contains_In in Hin.
  unfold built_entry, resolved_version, choose_version, dict_contains,
    dict_get_default.
  rewrite Hin.
  destruct (String.eqb_spec name "sklearn") as [->|Hs]; simpl.
  - destruct (dict_get pv "scikit-learn") as [w|]; [reflexivity|].
    destruct (dict_get pv "sklearn") as [v|]; [destruct (Str.truthy v)|];
      reflexivity.
  - destruct (String.eqb_spec name "PIL") as [->|Hp]; simpl.
    + destruct (dict_get pv "pillow") as [w|]; [reflexivity|].
      destruct (dict_get pv "PIL") as [v|]; [destruct (Str.truthy v)|];
        reflexivity.
    + reflexivity.
Qed.

(** ** The sample directory *)

Example sample_fake_versions :
  @load_exclude_packages_and_versions insertion_order sample_files
    "nuitka_excludes.txt" "requirements.txt"
  = ([], Return [("torch", "1.0.0"); ("PIL", "9.5.0"); ("foo", "2.3.1");
                 ("bar", "1.0.0")]).
Proof. reflexivity. Qed.

Example sample_fake_versions_reversed :
  @load_exclude_packages_and_versions reverse_order sample_files
    "nuitka_excludes.txt" "requirements.txt"
  = ([], Return [("bar", "1.0.0"); ("foo", "2.3.1"); ("PIL", "9.5.0");
                 ("torch", "1.0.0")]).
Proof. reflexivity. Qed.

(** ** C1: every excluded name has an entry *)

(** C1, counterexample: with [sklearn==0.0] and [scikit-learn==1.3.0] in the
    requirements, the excluded name [sklearn] has its own entry in the
    Version Table, yet the dictionary maps it to ["1.3.0"]. *)
Lemma sklearn_entry_overwritten :
  ~ @resolves_as_specified insertion_order sklearn_twice
      "nuitka_excludes.txt" "requirements.txt".
Proof.
  intros (tr & fake & Hload & Hname).
  vm_compute in Hload. injection Hload as _ <-.
  specialize (Hname "sklearn" (or_introl eq_refl)).
  vm_compute in Hname. discriminate Hname.
Qed.

(** C1 (amended): when both sources are readable or missing, the function
    returns a dictionary in which every name of the Exclusion Set is a key;
    its value is the Version Table entry of the canonical distribution
    (pillow for PIL, scikit-learn for sklearn) when there is one, else the
    name's own non-empty entry, else ["1.0.0"]. *)
Theorem excluded_names_resolved `{SetOrder} (fs : filesystem)
    (excludes_file requirements_file : string) :
  quiet (open fs (Path fs excludes_file)) = true ->
  quiet (open fs (Path fs requirements_file)) = true ->
  exists tr fake,
    load_exclude_packages_and_versions fs excludes_file requirements_file
      = (tr, Return fake)
    /\ forall name,
        In name (exclusion_set (open fs (Path fs excludes_file))) ->
        In name (dict_keys fake)
        /\ dict_get fake name =
           Some (resolved_version
                   (version_table (open fs (Path fs requirements_file))) name).
Proof.
  intros Hex Hreq.
  destruct (load_quiet fs excludes_file requirements_file Hex Hreq)
    as (fake & Hload & Hk).
  eexists; exists fake. split; [exact Hload|].
  intros name Hin.
  assert (Hv : dict_get fake name =
               Some (resolved_version
                       (version_table (open fs (Path fs requirements_file)))
                       name))
    by (rewrite Hk; now apply built_entry_excluded).
  split; [|exact Hv]. apply dict_get_In_keys. eauto.
Qed.

Lemma excluded_names_resolved_witness :
  quiet (open sample_files (Path sample_files "nuitka_excludes.txt")) = true
  /\ quiet (open sample_files (Path sample_files "requirements.txt")) = true
  /\ exists tr fake,
      @load_exclude_packages_and_versions insertion_order sample_files
        "nuitka_excludes.txt" "requirements.txt" = (tr, Return fake)
      /\ forall name,
          In name (exclusion_set
                     (open sample_files
                           (Path sample_files "nuitka_excludes.txt"))) ->
          In name (dict_keys fake)
          /\ dict_get fake name =
             Some (resolved_version
                     (version_table
                        (open sample_files
                              (Path sample_files "requirements.txt"))) name).
Proof.
  split; [reflexivity|]. split; [reflexivity|].
  apply (@excluded_names_resolved insertion_order sample_files);
    reflexivity.
Defined.

(** ** C2: precedence of the exact entry *)

(** C2, counterexample: [PIL==1.1.7] together with [pillow==9.5.0] yields
    [PIL -> "9.5.0"]; and an entry with an empty version, [foo==], yields
    the default. *)
Lemma exact_entry_overridden :
  ~ @exact_entry_wins insertion_order pil_twice
      "nuitka_excludes.txt" "requirements.txt"
  /\ ~ @exact_entry_wins insertion_order blank_version
         "nuitka_excludes.txt" "requirements.txt".
Proof.
  split; intros Hwins.
  - specialize (Hwins _ _ eq_refl "PIL" "1.1.7" (or_introl eq_refl) eq_refl).
    vm_compute in Hwins. discriminate Hwins.
  - specialize (Hwins _ _ eq_refl "foo" "" (or_introl eq_refl) eq_refl).
    vm_compute in Hwins. discriminate Hwins.
Qed.

(** C2 (amended): an excluded name with a non-empty entry of its own in the
    Version Table is mapped to that entry's version, unless the name is PIL
    and pillow is in the table, or the name is sklearn and scikit-learn is in
    the table. *)
Theorem exact_entry_precedence `{SetOrder} (fs : filesystem)
    (excludes_file requirements_file : string) (name v : string) :
  quiet (open fs (Path fs excludes_file)) = true ->
  quiet (open fs (Path fs requirements_file)) = true ->
  In name (exclusion_set (open fs (Path fs excludes_file))) ->
  dict_get (version_table (open fs (Path fs requirements_file))) name
    = Some v ->
  v <> "" ->
  (name = "PIL" ->
   dict_get (version_table (open fs (Path fs requirements_file))) "pillow"
     = None) ->
  (name = "sklearn" ->
   dict_get (version_table (open fs (Path fs requirements_file)))
            "scikit-learn" = None) ->
  exists tr fake,
    load_exclude_packages_and_versions fs excludes_file requirements_file
      = (tr, Return fake)
    /\ dict_get fake name = Some v.
Proof.
  intros Hex Hreq Hin Hv Hne Hpil Hsk.
  destruct (load_quiet fs excludes_file requirements_file Hex Hreq)
    as (fake & Hload & Hk).
  eexists; exists fake. split; [exact Hload|].
  rewrite Hk, (built_entry_excluded _ _ _ Hin).
  unfold resolved_version. rewrite Hv.
  assert (Ht : Str.truthy v = true) by (destruct v; [congruence | reflexivity]).
  rewrite Ht.
  destruct (String.eqb_spec name "PIL") as [E|_]; [now rewrite (Hpil E)|].
  destruct (String.eqb_spec name "sklearn") as [E|_]; [now rewrite (Hsk E)|].
  reflexivity.
Qed.

Lemma exact_entry_precedence_witness :
  exists tr fake,
    @load_exclude_packages_and_versions insertion_order sample_files
      "nuitka_excludes.txt" "requirements.txt" = (tr, Return fake)
    /\ dict_get fake "foo" = Some "2.3.1".
Proof.
  apply (@exact_entry_precedence insertion_order sample_files
           "nuitka_excludes.txt" "requirements.txt" "foo" "2.3.1").
  - reflexivity.
  - reflexivity.
  - vm_compute. tauto.
  - reflexivity.
  - intros E. discriminate E.
  - intros E. discriminate E.
  - intros E. discriminate E.
Defined.

(** ** C7: the import names of pillow and scikit-learn *)

(** Which entry of a requirements file the Version Table keeps for a name:
    the last line that enters it. *)
Lemma for_each_app {S : Type} (body : S -> string -> outcome S)
    (l1 l2 : list string) (s : S) :
  for_each body (l1 ++ l2) s =
  match for_each body l1 s with
  | (s', None) => for_each body l2 s'
  | r => r
  end.
Proof.
  revert s. induction l1 as [|l l1 IH]; intros s; simpl.
  - reflexivity.
  - destruct (body s l); [apply IH | reflexivity].
Qed.

Lemma requirements_keep (k : string) (lines : list string) :
  (forall l, In l lines ->
     forall pv, exists pv',
       requirements_line pv l = Return pv' /\ dict_get pv' k = dict_get pv k) ->
  forall pv,
    dict_get (fst (for_each requirements_line lines pv)) k = dict_get pv k.
Proof.
  induction lines as [|l lines IH]; intros Hkeep pv; simpl.
  - reflexivity.
  - destruct (Hkeep l (or_introl eq_refl) pv) as (pv' & -> & <-).
    apply IH. intros l' Hl'. apply Hkeep. now right.
Qed.

(** X18: when a name is pinned on several lines of the requirements file,
    the Version Table keeps the version of the last of them: a line that
    enters the name, followed only by lines that leave the name alone, decides
    its version. *)
Lemma last_pin_wins (k v line : string) (before after : list string) :
  (forall pv, requirements_line pv line = Return (dict_set pv k v)) ->
  (forall l, In l after ->
     forall pv, exists pv',
       requirements_line pv l = Return pv' /\ dict_get pv' k = dict_get pv k) ->
  dict_get (version_table (Readable (before ++ line :: after))) k = Some v.
Proof.
  intros Hline Hafter. unfold version_table. simpl.
  rewrite for_each_app.
  pose proof (for_each_total requirements_line requirements_line_total
                before []) as Hb.
  destruct (for_each requirements_line before []) as [pv [e|]];
    [discriminate Hb|].
  simpl. rewrite Hline, (requirements_keep k after Hafter).
  apply dict_get_set_eq.
Qed.


Example aliases_not_excluded_result :
  @load_exclude_packages_and_versions insertion_order aliases_not_excluded
    "nuitka_excludes.txt" "requirements.txt"
  = ([], Return [("torch", "1.0.0"); ("PIL", "9.5.0"); ("sklearn", "1.3.0")]).
Proof. reflexivity. Qed.


(** ** C5: unreadable sources *)

(** C5, counterexample: an excludes list that exists but may not be read
    makes the function raise PermissionError, with no warning printed. *)
Lemma permission_error_propagates :
  @load_exclude_packages_and_versions insertion_order excludes_unreadable
    "nuitka_excludes.txt" "requirements.txt" = ([], Raise PermissionError)
  /\ ~ @tolerates_unreadable insertion_order excludes_unreadable
         "nuitka_excludes.txt" "requirements.txt".
Proof.
  split; [reflexivity|].
  intros Htol. destruct Htol as (tr & fake & Hload & _).
  - left. discriminate.
  - discriminate Hload.
Qed.

(** An exception of another class leaves the function as it was raised. *)
Lemma other_failure_propagates `{SetOrder} (fs : filesystem)
    (excludes_file requirements_file : string) (e : exn) :
  failure (open fs (Path fs excludes_file)) = Some e ->
  is_FileNotFoundError e = false ->
  load_exclude_packages_and_versions fs excludes_file requirements_file
    = ([], Raise e).
Proof.
  intros Hf He. unfold load_exclude_packages_and_versions.
  rewrite (load_or_warn_spec _ excludes_line_total), Hf, He. reflexivity.
Qed.

Lemma load_or_warn_missing {S : Type} (fs : filesystem) (file : string)
    (body : S -> string -> outcome S) (s : S) :
  open fs file = OpenRaises FileNotFoundError ->
  load_or_warn fs file body s
  = ([Print ("Warning: " ++ file ++ " not found")], Return s).
Proof. intros Ho. unfold load_or_warn. rewrite Ho. reflexivity. Qed.

Lemma load_or_warn_missing_as_empty {S : Type} (fs : filesystem)
    (file : string) (body : S -> string -> outcome S) (s : S) :
  snd (load_or_warn (missing_as_empty fs) file body s)
  = snd (load_or_warn fs file body s).
Proof.
  unfold load_or_warn. simpl.
  destruct (open fs file) as [lines|e|prefix e]; [reflexivity| |reflexivity].
  destruct e; reflexivity.
Qed.

Lemma bind_fst_cons {A B : Type} (m : M A) (k : A -> M B) ev tr a :
  m = (ev :: tr, Return a) -> exists rest, fst (bind m k) = ev :: rest.
Proof.
  intros ->. unfold bind. destruct (k a) as [tr' r]. simpl. eauto.
Qed.

Lemma load_missing_as_empty `{SetOrder} (fs : filesystem)
    (excludes_file requirements_file : string) :
  snd (load_exclude_packages_and_versions fs excludes_file requirements_file)
  = snd (load_exclude_packages_and_versions (missing_as_empty fs)
           excludes_file requirements_file).
Proof.
  unfold load_exclude_packages_and_versions.
  change (Path (missing_as_empty fs)) with (Path fs).
  pose proof (load_or_warn_missing_as_empty fs (Path fs excludes_file)
                excludes_line []) as He.
  destruct (load_or_warn fs (Path fs excludes_file) excludes_line [])
    as [t1 [X|x]];
    destruct (load_or_warn (missing_as_empty fs) (Path fs excludes_file)
                excludes_line []) as [t1' [X'|x']];
    simpl in He; try discriminate He; injection He as He; subst;
    [|reflexivity].
  unfold bind at 1 3.
  pose proof (load_or_warn_missing_as_empty fs (Path fs requirements_file)
                requirements_line []) as Hr.
  destruct (load_or_warn fs (Path fs requirements_file) requirements_line [])
    as [t2 [pv|x]];
    destruct (load_or_warn (missing_as_empty fs) (Path fs requirements_file)
                requirements_line []) as [t2' [pv'|x']];
    simpl in Hr; try discriminate Hr; injection Hr as Hr; subst;
    [|reflexivity].
  unfold bind. destruct (build_fake_versions _ _) as [t3 r3]. reflexivity.
Qed.

(** C5 (amended): on every input the outcome of the function, the dictionary
    returned or the exception raised, is its outcome on the file system where
    missing files are empty files.  A missing excludes file (opening it raises
    FileNotFoundError) makes the function print the warning that names it,
    first of all; a missing requirements file makes it print the warning that
    names it whenever the excludes file was readable or failed with
    FileNotFoundError.  The function returns when each source is readable or
    fails with FileNotFoundError.  Another exception is not absorbed: raised
    by the excludes file it leaves the function at once, with nothing
    printed and the requirements file not looked at; raised by the
    requirements file it leaves the function after the warnings of the
    excludes file. *)
Theorem missing_source_as_empty `{SetOrder} (fs : filesystem)
    (excludes_file requirements_file : string) :
  snd (load_exclude_packages_and_versions fs excludes_file requirements_file)
  = snd (load_exclude_packages_and_versions (missing_as_empty fs)
           excludes_file requirements_file)
  /\ (open fs (Path fs excludes_file) = OpenRaises FileNotFoundError ->
      exists rest,
        fst (load_exclude_packages_and_versions fs excludes_file
               requirements_file)
        = Print ("Warning: " ++ Path fs excludes_file ++ " not found") :: rest)
  /\ (open fs (Path fs requirements_file) = OpenRaises FileNotFoundError ->
      quiet (open fs (Path fs excludes_file)) = true ->
      In (Print ("Warning: " ++ Path fs requirements_file ++ " not found"))
         (fst (load_exclude_packages_and_versions fs excludes_file
                 requirements_file)))
  /\ (quiet (open fs (Path fs excludes_file)) = true ->
      quiet (open fs (Path fs requirements_file)) = true ->
      exists fake,
        load_exclude_packages_and_versions fs excludes_file requirements_file
        = (warnings (Path fs excludes_file) (open fs (Path fs excludes_file))
             ++ warnings (Path fs requirements_file)
                         (open fs (Path fs requirements_file)),
           Return fake))
  /\ (forall x,
        failure (open fs (Path fs excludes_file)) = Some x ->
        is_FileNotFoundError x = false ->
        load_exclude_packages_and_versions fs excludes_file requirements_file
        = ([], Raise x))
  /\ (forall x,
        quiet (open fs (Path fs excludes_file)) = true ->
        failure (open fs (Path fs requirements_file)) = Some x ->
        is_FileNotFoundError x = false ->
        load_exclude_packages_and_versions fs excludes_file requirements_file
        = (warnings (Path fs excludes_file) (open fs (Path fs excludes_file)),
           Raise x)).
Proof.
  split; [apply load_missing_as_empty|].
  split.
  { intros Ho. unfold load_exclude_packages_and_versions.
    eapply bind_fst_cons. now apply load_or_warn_missing. }
  split.
  { intros Ho Hex. unfold load_exclude_packages_and_versions.
    rewrite (load_or_warn_quiet _ excludes_line_total fs _ _ Hex).
    rewrite (load_or_warn_missing fs _ requirements_line [] Ho).
    unfold bind.
    destruct (build_fake_versions_spec
                (fst (with_open_for (open fs (Path fs excludes_file))
                        excludes_line [])) []) as (fake & -> & _).
    simpl. apply in_or_app. right. left. reflexivity. }
  split.
  { intros Hex Hreq.
    destruct (load_quiet fs excludes_file requirements_file Hex Hreq)
      as (fake & Hload & _).
    exists fake. exact Hload. }
  split.
  { intros x Hf Hx. now apply other_failure_propagates. }
  intros x Hex Hf Hx. unfold load_exclude_packages_and_versions.
  rewrite (load_or_warn_quiet _ excludes_line_total fs _ _ Hex).
  rewrite (load_or_warn_spec _ requirements_line_total), Hf, Hx.
  simpl. now rewrite app_nil_r.
Qed.

Lemma missing_source_as_empty_witness :
  (exists rest,
     fst (@load_exclude_packages_and_versions insertion_order excludes_missing
            "nuitka_excludes.txt" "requirements.txt")
     = Print "Warning: nuitka_excludes.txt not found" :: rest)
  /\ @load_exclude_packages_and_versions insertion_order missing_then_denied
       "nuitka_excludes.txt" "requirements.txt"
     = ([Print "Warning: nuitka_excludes.txt not found"],
        Raise PermissionError)
  /\ @load_exclude_packages_and_versions insertion_order denied_then_missing
       "nuitka_excludes.txt" "requirements.txt"
     = ([], Raise PermissionError).
Proof.
  split; [|split].
  - apply (proj1 (proj2 (@missing_source_as_empty insertion_order
                           excludes_missing "nuitka_excludes.txt"
                           "requirements.txt"))).
    reflexivity.
  - apply (proj2 (proj2 (proj2 (proj2 (proj2
             (@missing_source_as_empty insertion_order missing_then_denied
                "nuitka_excludes.txt" "requirements.txt")))))
             PermissionError); reflexivity.
  - apply (proj1 (proj2 (proj2 (proj2 (proj2
             (@missing_source_as_empty insertion_order denied_then_missing
                "nuitka_excludes.txt" "requirements.txt")))))
             PermissionError); reflexivity.
Defined.

(** ** C8: requirement lines of another form *)

(** C8, counterexample: a requirement with an environment marker and no
    version, and a range constraint, both contain [==] and are entered in the
    Version Table, split at the first [==]. *)
Lemma marker_line_adds_entry :
  requirements_line [] (ln "requests ; python_version == '3.8'")
    = Return [("requests ; python_version", "'3.8'")]
  /\ requirements_line [] (ln "numpy>=1.20,==1.*")
     = Return [("numpy>=1.20,", "1.*")]
  /\ ~ inexact_line_ignored (ln "requests ; python_version == '3.8'")
  /\ ~ inexact_line_ignored (ln "numpy>=1.20,==1.*").
Proof.
  split; [reflexivity|]. split; [reflexivity|].
  split; intros Hign.
  - assert (Hr := Hign ltac:(vm_compute; discriminate) eq_refl eq_refl []).
    vm_compute in Hr. discriminate Hr.
  - assert (Hr := Hign ltac:(vm_compute; discriminate) eq_refl eq_refl []).
    vm_compute in Hr. discriminate Hr.
Qed.

Lemma for_each_skip {S : Type} (body : S -> string -> outcome S)
    (before after : list string) (line : string) :
  (forall s, body s line = Return s) ->
  forall s, for_each body (before ++ line :: after) s
            = for_each body (before ++ after) s.
Proof.
  intros Hskip. induction before as [|l before IH]; intros s; simpl.
  - now rewrite Hskip.
  - destruct (body s l); [apply IH | reflexivity].
Qed.

(** A blank line or a comment is skipped, whatever it holds. *)
Lemma blank_or_comment_ignored (line : string) (package_versions : dict) :
  Str.strip line = "" \/ Str.startswith "#" (Str.strip line) = true ->
  requirements_line package_versions line = Return package_versions.
Proof.
  unfold requirements_line. intros [->| ->]; [reflexivity|].
  now rewrite andb_false_r.
Qed.

(** A line with [==] is entered whatever else it holds. *)
Lemma line_with_pin_entered (line : string) (package_versions : dict) :
  Str.strip line <> "" ->
  Str.startswith "#" (Str.strip line) = false ->
  Str.contains "==" (Str.strip line) = true ->
  exists package ver,
    Str.split1 "==" (Str.strip line) = [package; ver]
    /\ requirements_line package_versions line
       = Return (dict_set package_versions (Str.strip package) (Str.strip ver)).
Proof.
  intros Hne Hs Hc. unfold requirements_line. rewrite Hs, Hc.
  destruct (split1_contains _ _ Hc) as (a & b & Hab). rewrite Hab.
  exists a, b. split; [reflexivity|].
  destruct (Str.strip line); [congruence | reflexivity].
Qed.

Lemma prefix_append (sep b : string) : String.prefix sep (sep ++ b) = true.
Proof.
  induction sep as [|a sep IH]; simpl.
  - destruct b; reflexivity.
  - destruct (ascii_dec a a) as [_|Hne]; [exact IH | now destruct Hne].
Qed.

Lemma prefix_split (sep s : string) :
  String.prefix sep s = true ->
  s = (sep ++ Str.drop (String.length sep) s)%string.
Proof.
  revert s. induction sep as [|a sep IH]; intros s Hp.
  - destruct s; reflexivity.
  - destruct s as [|c s]; simpl in Hp; [discriminate Hp|].
    destruct (ascii_dec a c) as [<-|_]; [|discriminate Hp].
    simpl. f_equal. now apply IH.
Qed.

(** What [split1] returns when it finds the separator: the text before and
    after its first occurrence. *)
Lemma split1_first_occurrence (sep s a b : string) :
  Str.split1 sep s = [a; b] ->
  s = (a ++ sep ++ b)%string
  /\ forall a' b', s = (a' ++ sep ++ b')%string ->
                   String.length a <= String.length a'.
Proof.
  revert a. induction s as [|c s IH]; intros a; rewrite split1_unfold;
    destruct (String.prefix sep _) eqn:Hp.
  - intros [= <- <-]. split; [now apply prefix_split|].
    intros a' b' _. apply Nat.le_0_l.
  - discriminate.
  - intros [= <- <-]. split; [now apply prefix_split|].
    intros a' b' _. apply Nat.le_0_l.
  - destruct (Str.split1 sep s) as [|a0 rest] eqn:Es; [discriminate|].
    intros [= <- ->]. destruct (IH a0 eq_refl) as [Hs Hmin].
    split; [simpl; now f_equal|].
    intros [|c' a'] b' Heq.
    + simpl in Heq. rewrite Heq, prefix_append in Hp. discriminate Hp.
    + simpl in Heq. injection Heq as _ Heq. simpl.
      apply le_n_S. exact (Hmin a' b' Heq).
Qed.

(** C8 (amended): a requirements line that is blank, is a comment, or whose
    trimmed text does not contain [==] adds no entry and raises nothing: the
    loop body returns the table unchanged, and the Version Table of a file is
    the one of the file without that line.  Every other line, one whose
    trimmed text is not empty, does not start with [#] and contains [==]
    anywhere, is entered and raises nothing either: the trimmed text is split
    at its first [==], and the table gets the trimmed text before it as name
    and the trimmed text after it as version. *)
Theorem requirements_line_ignored_or_entered (line : string) :
  (Str.strip line = ""
   \/ Str.startswith "#" (Str.strip line) = true
   \/ Str.contains "==" (Str.strip line) = false ->
   (forall package_versions,
      requirements_line package_versions line = Return package_versions)
   /\ forall before after,
        version_table (Readable (before ++ line :: after))
        = version_table (Readable (before ++ after)))
  /\ (Str.strip line <> "" ->
      Str.startswith "#" (Str.strip line) = false ->
      Str.contains "==" (Str.strip line) = true ->
      exists package ver,
        Str.strip line = (package ++ "==" ++ ver)%string
        /\ (forall package' ver',
              Str.strip line = (package' ++ "==" ++ ver')%string ->
              String.length package <= String.length package')
        /\ forall package_versions,
             requirements_line package_versions line
             = Return (dict_set package_versions (Str.strip package)
                                (Str.strip ver))).
Proof.
  split.
  - intros Hign.
    assert (Hskip : forall pv, requirements_line pv line = Return pv).
    { intros pv. destruct Hign as [Hb|[Hc|Hn]].
      - apply blank_or_comment_ignored. now left.
      - apply blank_or_comment_ignored. now right.
      - unfold requirements_line. rewrite Hn. now rewrite andb_false_r. }
    split; [exact Hskip|].
    intros before after. unfold version_table. simpl.
    now rewrite (for_each_skip requirements_line before after line Hskip).
  - intros Hne Hs Hc.
    destruct (line_with_pin_entered line [] Hne Hs Hc)
      as (package & ver & Hsplit & _).
    destruct (split1_first_occurrence _ _ _ _ Hsplit) as [Heq Hmin].
    exists package, ver. split; [exact Heq|]. split; [exact Hmin|].
    intros pv.
    destruct (line_with_pin_entered line pv Hne Hs Hc)
      as (package' & ver' & Hsplit' & Hr).
    rewrite Hsplit in Hsplit'. injection Hsplit' as <- <-. exact Hr.
Qed.

Lemma requirements_line_ignored_or_entered_witness :
  ((forall package_versions,
      requirements_line package_versions (ln "torch>=2.0")
      = Return package_versions)
   /\ forall before after,
        version_table (Readable (before ++ ln "torch>=2.0" :: after))
        = version_table (Readable (before ++ after)))
  /\ (forall package_versions,
        requirements_line package_versions (ln "# torch==2.1.0")
        = Return package_versions)
  /\ exists package ver,
       Str.strip (ln "numpy>=1.20,==1.*") = (package ++ "==" ++ ver)%string
       /\ (forall package' ver',
             Str.strip (ln "numpy>=1.20,==1.*")
             = (package' ++ "==" ++ ver')%string ->
             String.length package <= String.length package')
       /\ forall package_versions,
            requirements_line package_versions (ln "numpy>=1.20,==1.*")
            = Return (dict_set package_versions (Str.strip package)
                               (Str.strip ver)).
Proof.
  split; [|split].
  - apply (proj1 (requirements_line_ignored_or_entered (ln "torch>=2.0"))).
    right. right. reflexivity.
  - apply (proj1 (requirements_line_ignored_or_entered
                    (ln "# torch==2.1.0"))).
    right. left. reflexivity.
  - apply (proj2 (requirements_line_ignored_or_entered
                    (ln "numpy>=1.20,==1.*"))).
    + vm_compute. discriminate.
    + reflexivity.
    + reflexivity.
Defined.

(** ** The patched lookups *)

Lemma try_except_reraise {A : Type} (m : M A) :
  try_except m is_Exception (fun e => raise e) = m.
Proof.
  destruct m as [tr [a|e]]; simpl; [reflexivity|]. now rewrite app_nil_r.
Qed.

Lemma find_first {A : Type} (f : A -> bool) (l : list A) (x : A) :
  find f l = Some x ->
  f x = true
  /\ exists l1 l2, l = l1 ++ x :: l2 /\ forall y, In y l1 -> f y = false.
Proof.
  induction l as [|a l IH]; simpl; [discriminate|].
  destruct (f a) eqn:Ea.
  - intros [= ->]. split; [exact Ea|]. exists [], l. simpl. tauto.
  - intros Hf. destruct (IH Hf) as (Hx & l1 & l2 & -> & Hl1).
    split; [exact Hx|]. exists (a :: l1), l2. split; [reflexivity|].
    intros y [<-|Hy]; auto.
Qed.

Lemma first_normalized_key_None (FAKE_VERSIONS : dict) (n : string) :
  first_normalized_key FAKE_VERSIONS n = None <->
  forall key, In key (dict_keys FAKE_VERSIONS) -> normalize key <> n.
Proof.
  unfold first_normalized_key. split.
  - intros Hnone key Hin. apply String.eqb_neq.
    exact (find_none _ _ Hnone key Hin).
  - intros Hall. destruct (find _ _) as [k|] eqn:Ef; [|reflexivity].
    apply find_some in Ef. destruct Ef as [Hin Heq].
    apply String.eqb_eq in Heq. now destruct (Hall k Hin).
Qed.

Section Lookups.
Context {RealDistribution : Type} (reg : registry RealDistribution).

Lemma patched_version_exact FAKE_VERSIONS original dist_name v :
  dict_get FAKE_VERSIONS dist_name = Some v ->
  patched_version FAKE_VERSIONS original dist_name = ([], Return v).
Proof.
  intros Hv. unfold patched_version, dict_contains, dict_getitem.
  now rewrite Hv.
Qed.

Lemma patched_distribution_exact FAKE_VERSIONS
    (original : string -> M (distribution_object RealDistribution))
    dist_name v :
  dict_get FAKE_VERSIONS dist_name = Some v ->
  patched_distribution FAKE_VERSIONS original dist_name
  = ([], Return (Fake (create_fake_distribution dist_name v))).
Proof.
  intros Hv. unfold patched_distribution, dict_contains, dict_getitem.
  now rewrite Hv.
Qed.

Lemma patched_version_no_match FAKE_VERSIONS original dist_name :
  (forall key, In key (dict_keys FAKE_VERSIONS) ->
               normalize key <> normalize dist_name) ->
  patched_version FAKE_VERSIONS original dist_name = original dist_name.
Proof.
  intros Hno. unfold patched_version.
  assert (Hc : dict_contains FAKE_VERSIONS dist_name = false).
  { destruct (dict_contains FAKE_VERSIONS dist_name) eqn:E; [|reflexivity].
    apply dict_contains_true, dict_get_In_keys in E.
    now destruct (Hno dist_name E). }
  rewrite Hc. apply first_normalized_key_None in Hno. rewrite Hno.
  apply try_except_reraise.
Qed.

Lemma patched_distribution_no_match FAKE_VERSIONS
    (original : string -> M (distribution_object RealDistribution))
    dist_name :
  (forall key, In key (dict_keys FAKE_VERSIONS) ->
               normalize key <> normalize dist_name) ->
  patched_distribution FAKE_VERSIONS original dist_name = original dist_name.
Proof.
  intros Hno. unfold patched_distribution.
  assert (Hc : dict_contains FAKE_VERSIONS dist_name = false).
  { destruct (dict_contains FAKE_VERSIONS dist_name) eqn:E; [|reflexivity].
    apply dict_contains_true, dict_get_In_keys in E.
    now destruct (Hno dist_name E). }
  rewrite Hc. apply first_normalized_key_None in Hno. now rewrite Hno.
Qed.

Lemma patched_lookups_answer FAKE_VERSIONS original_version
    (original_distribution : string -> M (distribution_object RealDistribution))
    dist_name key :
  answering_key FAKE_VERSIONS dist_name = Some key ->
  exists v,
    dict_get FAKE_VERSIONS key = Some v
    /\ normalize key = normalize dist_name
    /\ patched_version FAKE_VERSIONS original_version dist_name
       = ([], Return v)
    /\ patched_distribution FAKE_VERSIONS original_distribution dist_name
       = ([], Return (Fake (create_fake_distribution dist_name v))).
Proof.
  unfold answering_key, patched_version, patched_distribution.
  destruct (dict_contains FAKE_VERSIONS dist_name) eqn:Ec.
  - intros [= <-]. apply dict_contains_true in Ec. destruct Ec as [v Hv].
    exists v. unfold dict_getitem. rewrite Hv. auto.
  - intros Hf. rewrite Hf. unfold first_normalized_key in Hf.
    apply find_some in Hf. destruct Hf as [Hin Heq].
    apply String.eqb_eq in Heq.
    apply dict_get_In_keys in Hin. destruct Hin as [v Hv].
    exists v. unfold dict_getitem. rewrite Hv. auto.
Qed.

Lemma answering_key_exists FAKE_VERSIONS dist_name key :
  In key (dict_keys FAKE_VERSIONS) ->
  normalize dist_name = normalize key ->
  exists key', answering_key FAKE_VERSIONS dist_name = Some key'.
Proof.
  intros Hin Hn. unfold answering_key.
  destruct (dict_contains FAKE_VERSIONS dist_name); [eauto|].
  destruct (first_normalized_key _ _) as [k|] eqn:Ef; [eauto|].
  rewrite first_normalized_key_None in Ef.
  now destruct (Ef key Hin).
Qed.
End Lookups.

(** ** Installing the hook *)

Lemma install_success (FAKE_VERSIONS : dict) (p : process) tr b p' :
  install FAKE_VERSIONS p = (tr, Return (b, p')) ->
  match p with
  | Some m =>
      tr = [] /\ b = true
      /\ p' = Some {| version := PatchedVersion FAKE_VERSIONS (version m);
                      distribution :=
                        PatchedDistribution FAKE_VERSIONS (distribution m) |}
  | None => tr = [] /\ b = false /\ p' = None
  end.
Proof.
  unfold install. destruct p as [m|]; simpl; intros [= <- <- <-]; auto.
Qed.

Lemma patch_success `{SetOrder} (fs : filesystem)
    (excludes_file requirements_file : option string) (p : process) tr p' :
  patch_importlib_metadata fs excludes_file requirements_file p
    = (tr, Return (true, p')) ->
  exists FAKE_VERSIONS m,
    load_FAKE_VERSIONS fs excludes_file requirements_file
      = (tr, Return FAKE_VERSIONS)
    /\ p = Some m
    /\ p' = Some {| version := PatchedVersion FAKE_VERSIONS (version m);
                    distribution :=
                      PatchedDistribution FAKE_VERSIONS (distribution m) |}.
Proof.
  unfold patch_importlib_metadata, bind.
  destruct (load_FAKE_VERSIONS fs excludes_file requirements_file)
    as [tr0 [FAKE|e]]; [|discriminate].
  destruct (install FAKE p) as [tr1 r] eqn:Ei.
  intros [= <- ->]. apply install_success in Ei.
  destruct p as [m|].
  - destruct Ei as (-> & _ & ->). exists FAKE, m.
    now rewrite app_nil_r.
  - destruct Ei as (_ & Hb & _). discriminate Hb.
Qed.

(** ** C3: a key of the dictionary is answered from the dictionary *)

(** C3: after a successful patch, looking up the version of a key of
    FAKE_VERSIONS returns the value stored under it; the events are empty (the
    real registry did not run) and the answer is the same whatever the
    captured original function does. *)
Theorem fake_version_for_key `{SetOrder} {RealDistribution : Type}
    (reg : registry RealDistribution) (fs : filesystem)
    (excludes_file requirements_file : option string) (p : process) tr p' :
  patch_importlib_metadata fs excludes_file requirements_file p
    = (tr, Return (true, p')) ->
  exists FAKE_VERSIONS m',
    load_FAKE_VERSIONS fs excludes_file requirements_file
      = (tr, Return FAKE_VERSIONS)
    /\ p' = Some m'
    /\ forall name v,
        dict_get FAKE_VERSIONS name = Some v ->
        call_version reg (version m') name = ([], Return v)
        /\ forall original,
            patched_version FAKE_VERSIONS original name = ([], Return v).
Proof.
  intros Hp. destruct (patch_success _ _ _ _ _ _ Hp) as (FAKE & m & Hl & -> & ->).
  eexists FAKE, _. split; [exact Hl|]. split; [reflexivity|].
  intros name v Hv. simpl. split; [|intros original];
    now apply patched_version_exact.
Qed.

Lemma fake_version_for_key_witness :
  exists FAKE_VERSIONS m',
    @load_FAKE_VERSIONS insertion_order sample_files
      (Some "nuitka_excludes.txt") (Some "requirements.txt")
      = ([], Return FAKE_VERSIONS)
    /\ Some {| version :=
                PatchedVersion
                  [("torch", "1.0.0"); ("PIL", "9.5.0"); ("foo", "2.3.1");
                   ("bar", "1.0.0")] MetadataVersion;
              distribution :=
                PatchedDistribution
                  [("torch", "1.0.0"); ("PIL", "9.5.0"); ("foo", "2.3.1");
                   ("bar", "1.0.0")] MetadataDistribution |} = Some m'
    /\ forall name v,
        dict_get FAKE_VERSIONS name = Some v ->
        call_version empty_registry (version m') name = ([], Return v)
        /\ forall original,
            patched_version FAKE_VERSIONS original name = ([], Return v).
Proof.
  apply (@fake_version_for_key insertion_order unit empty_registry sample_files
           (Some "nuitka_excludes.txt") (Some "requirements.txt") unpatched).
  reflexivity.
Defined.

(** ** C4: other names reach the original function *)

(** C4: after a successful patch, a name that is no key of FAKE_VERSIONS and
    whose normalized form is that of no key is looked up by the original
    function, the one [metadata.version] held before the patch, with the same
    events and the same outcome; an exception it raises is the exception the
    caller sees. *)
Theorem unknown_name_delegates `{SetOrder} {RealDistribution : Type}
    (reg : registry RealDistribution) (fs : filesystem)
    (excludes_file requirements_file : option string) (p : process) tr p' :
  patch_importlib_metadata fs excludes_file requirements_file p
    = (tr, Return (true, p')) ->
  exists FAKE_VERSIONS m m',
    load_FAKE_VERSIONS fs excludes_file requirements_file
      = (tr, Return FAKE_VERSIONS)
    /\ p = Some m /\ p' = Some m'
    /\ forall name,
        ~ In name (dict_keys FAKE_VERSIONS) ->
        (forall key, In key (dict_keys FAKE_VERSIONS) ->
                     normalize key <> normalize name) ->
        call_version reg (version m') name = call_version reg (version m) name
        /\ forall e,
            version m = MetadataVersion ->
            registry_version reg name = Raise e ->
            call_version reg (version m') name
            = ([RegistryVersion name], Raise e).
Proof.
  intros Hp. destruct (patch_success _ _ _ _ _ _ Hp) as (FAKE & m & Hl & -> & ->).
  eexists FAKE, m, _. split; [exact Hl|]. do 2 (split; [reflexivity|]).
  intros name _ Hno. simpl.
  rewrite (patched_version_no_match _ _ _ Hno).
  split; [reflexivity|]. intros e -> He. simpl. now rewrite He.
Qed.

Lemma unknown_name_delegates_witness :
  call_version empty_registry
    (PatchedVersion
       [("torch", "1.0.0"); ("PIL", "9.5.0"); ("foo", "2.3.1"); ("bar", "1.0.0")]
       MetadataVersion) "requests"
  = ([RegistryVersion "requests"], Raise (PackageNotFoundError "requests")).
Proof.
  destruct (@unknown_name_delegates insertion_order unit empty_registry
              sample_files (Some "nuitka_excludes.txt")
              (Some "requirements.txt") unpatched _ _ eq_refl)
    as (FAKE & m & m' & Hl & Hm & Hm' & Hnames).
  injection Hl as <-. injection Hm as <-. injection Hm' as <-.
  refine (proj2 (Hnames "requests" _ _) _ eq_refl eq_refl).
  - vm_compute. intuition discriminate.
  - intros key Hin. vm_compute in Hin.
    destruct Hin as [<-|[<-|[<-|[<-|[]]]]]; vm_compute; discriminate.
Defined.

(** ** C9: matching up to case and separator *)

(** C9, counterexample: with both spellings excluded the dictionary holds
    two keys of one normalized form and different versions.  A lookup for
    [Scikit-Learn] answers from whichever comes first, which depends on the
    order in which the set of excluded names is visited: it is not the version
    of the key [scikit-learn] in one order, and not the version of the key
    [scikit_learn] in the other. *)
Lemma colliding_keys_first_wins :
  (exists FAKE_VERSIONS,
     @load_FAKE_VERSIONS insertion_order two_spellings
       (Some "nuitka_excludes.txt") (Some "requirements.txt")
     = ([], Return FAKE_VERSIONS)
     /\ ~ normalized_match_returns_key empty_registry FAKE_VERSIONS
            "Scikit-Learn" "scikit-learn")
  /\ (exists FAKE_VERSIONS,
        @load_FAKE_VERSIONS reverse_order two_spellings
          (Some "nuitka_excludes.txt") (Some "requirements.txt")
        = ([], Return FAKE_VERSIONS)
        /\ ~ normalized_match_returns_key empty_registry FAKE_VERSIONS
               "Scikit-Learn" "scikit_learn").
Proof.
  split; eexists; (split; [reflexivity|]); intros Hm.
  - specialize (Hm "1.3.0" eq_refl eq_refl). vm_compute in Hm.
    discriminate Hm.
  - specialize (Hm "1.0.0" eq_refl eq_refl). vm_compute in Hm.
    discriminate Hm.
Qed.

(** C9 (amended): after a successful patch, a name whose normalized form is
    that of some key of FAKE_VERSIONS is answered from the dictionary by both
    lookups, without reaching the original functions: the version returned,
    and the version of the record returned under the requested name, is the
    value of a key with that normalized form.  That key is the requested name
    when it is a key, else the first such key in dictionary order; it is the
    given key whenever no other key has its normalized form. *)
Theorem normalized_name_answered `{SetOrder} {RealDistribution : Type}
    (reg : registry RealDistribution) (fs : filesystem)
    (excludes_file requirements_file : option string) (p : process) tr p' :
  patch_importlib_metadata fs excludes_file requirements_file p
    = (tr, Return (true, p')) ->
  exists FAKE_VERSIONS m',
    load_FAKE_VERSIONS fs excludes_file requirements_file
      = (tr, Return FAKE_VERSIONS)
    /\ p' = Some m'
    /\ forall name key,
        In key (dict_keys FAKE_VERSIONS) ->
        normalize name = normalize key ->
        exists key' v,
          dict_get FAKE_VERSIONS key' = Some v
          /\ normalize key' = normalize name
          /\ call_version reg (version m') name = ([], Return v)
          /\ call_distribution reg (distribution m') name
             = ([], Return (Fake (create_fake_distribution name v)))
          /\ (In name (dict_keys FAKE_VERSIONS) -> key' = name)
          /\ (~ In name (dict_keys FAKE_VERSIONS) ->
              exists l1 l2,
                dict_keys FAKE_VERSIONS = l1 ++ key' :: l2
                /\ forall k, In k l1 -> normalize k <> normalize name)
          /\ ((forall k, In k (dict_keys FAKE_VERSIONS) ->
                         normalize k = normalize name -> k = key) ->
              key' = key).
Proof.
  intros Hp. destruct (patch_success _ _ _ _ _ _ Hp) as (FAKE & m & Hl & -> & ->).
  eexists FAKE, _. split; [exact Hl|]. split; [reflexivity|].
  intros name key Hin Hn.
  destruct (answering_key_exists FAKE name key Hin Hn) as [key' Hk].
  destruct (patched_lookups_answer FAKE (call_version reg (version m))
              (call_distribution reg (distribution m)) name key' Hk)
    as (v & Hv & Hn' & Hcv & Hcd).
  exists key', v. simpl. do 4 (split; [assumption|]).
  unfold answering_key in Hk.
  assert (Hkey' : In key' (dict_keys FAKE)) by (apply dict_get_In_keys; eauto).
  split; [|split].
  - intros Hname. apply dict_get_In_keys, dict_contains_true in Hname.
    rewrite Hname in Hk. now injection Hk.
  - intros Hname.
    destruct (dict_contains FAKE name) eqn:Ec.
    + apply dict_contains_true, dict_get_In_keys in Ec. contradiction.
    + apply find_first in Hk. destruct Hk as (_ & l1 & l2 & Hsplit & Hl1).
      exists l1, l2. split; [exact Hsplit|].
      intros k Hk. apply String.eqb_neq. now apply Hl1.
  - intros Huniq. now apply Huniq.
Qed.

Lemma normalized_name_answered_witness :
  call_version empty_registry
    (PatchedVersion [("scikit_learn", "1.0.0")] MetadataVersion) "Scikit-Learn"
  = ([], Return "1.0.0")
  /\ call_distribution empty_registry
       (PatchedDistribution [("scikit_learn", "1.0.0")] MetadataDistribution)
       "Scikit-Learn"
     = ([], Return (Fake (create_fake_distribution "Scikit-Learn" "1.0.0"))).
Proof.
  destruct (@normalized_name_answered insertion_order unit empty_registry
              underscore_key (Some "nuitka_excludes.txt")
              (Some "requirements.txt") unpatched _ _ eq_refl)
    as (FAKE & m' & Hl & Hm' & Hnames).
  injection Hl as <-. injection Hm' as <-.
  destruct (Hnames "Scikit-Learn" "scikit_learn" (or_introl eq_refl) eq_refl)
    as (key' & v & Hv & _ & Hcv & Hcd & _ & _ & Huniq).
  assert (Hkey : key' = "scikit_learn").
  { apply Huniq. intros k [<-|[]] _. reflexivity. }
  subst key'. injection Hv as <-. split; [exact Hcv | exact Hcd].
Defined.

(** ** C6: patching twice *)

(** C6, counterexample: the second call reads [metadata.version] after the
    first call assigned it, so the original it captures is the first closure.
    Patching again without paths leaves the first dictionary in force: [torch]
    is still answered ["1.0.0"] although nothing is installed. *)
Lemma second_patch_captures_first_wrapper :
  ~ @second_patch_captures_registry insertion_order sample_files
      (Some "nuitka_excludes.txt") (Some "requirements.txt") None None
  /\ exists p1 m2,
      @patch_importlib_metadata insertion_order sample_files
        (Some "nuitka_excludes.txt") (Some "requirements.txt") unpatched
        = ([], Return (true, p1))
      /\ @patch_importlib_metadata insertion_order sample_files None None p1
         = ([], Return (true, Some m2))
      /\ call_version empty_registry (version m2) "torch"
         = ([], Return "1.0.0").
Proof.
  split.
  - intros Hc. destruct (Hc _ _ _ _ eq_refl eq_refl) as [Hv _].
    vm_compute in Hv. discriminate Hv.
  - eexists; eexists. split; [reflexivity|]. split; reflexivity.
Qed.

(** A lookup through any chain of closures returns, and the real function
    runs at most once. *)
Lemma call_version_bounded {RealDistribution : Type}
    (reg : registry RealDistribution) (f : version_fn) (name : string) :
  registry_calls (fst (call_version reg f name)) <= 1.
Proof.
  induction f as [|FAKE f IH]; simpl; [auto|].
  unfold patched_version.
  destruct (dict_contains FAKE name) eqn:Ec.
  - apply dict_contains_true in Ec. destruct Ec as [v Hv].
    rewrite (dict_getitem_Some _ _ _ Hv). simpl. auto.
  - destruct (first_normalized_key FAKE (normalize name)) as [k|] eqn:Ef.
    + unfold first_normalized_key in Ef. apply find_some in Ef.
      destruct Ef as [Hin _]. apply dict_get_In_keys in Hin.
      destruct Hin as [v Hv]. rewrite (dict_getitem_Some _ _ _ Hv).
      simpl. auto.
    + now rewrite try_except_reraise.
Qed.

Lemma call_distribution_bounded {RealDistribution : Type}
    (reg : registry RealDistribution) (f : distribution_fn) (name : string) :
  registry_calls (fst (call_distribution reg f name)) <= 1.
Proof.
  induction f as [|FAKE f IH]; simpl; [auto|].
  unfold patched_distribution.
  destruct (dict_contains FAKE name) eqn:Ec.
  - apply dict_contains_true in Ec. destruct Ec as [v Hv].
    rewrite (dict_getitem_Some _ _ _ Hv). simpl. auto.
  - destruct (first_normalized_key FAKE (normalize name)) as [k|] eqn:Ef.
    + unfold first_normalized_key in Ef. apply find_some in Ef.
      destruct Ef as [Hin _]. apply dict_get_In_keys in Hin.
      destruct Hin as [v Hv]. rewrite (dict_getitem_Some _ _ _ Hv).
      simpl. auto.
    + exact IH.
Qed.

(** C6 (amended): after two successful calls the second closures capture the
    closures of the first call, which capture the functions the module held
    before.  Lookups return and run the real registry function at most once;
    a name that matches no key of either dictionary is answered by the
    function the module held before the first call. *)
Theorem second_patch_wraps_first `{SetOrder} {RealDistribution : Type}
    (reg : registry RealDistribution) (fs : filesystem)
    (excludes1 requirements1 excludes2 requirements2 : option string)
    (p : process) tr1 p1 tr2 p2 :
  patch_importlib_metadata fs excludes1 requirements1 p
    = (tr1, Return (true, p1)) ->
  patch_importlib_metadata fs excludes2 requirements2 p1
    = (tr2, Return (true, p2)) ->
  exists FAKE1 FAKE2 m,
    p = Some m
    /\ load_FAKE_VERSIONS fs excludes1 requirements1 = (tr1, Return FAKE1)
    /\ load_FAKE_VERSIONS fs excludes2 requirements2 = (tr2, Return FAKE2)
    /\ p2 = Some {| version :=
                      PatchedVersion FAKE2 (PatchedVersion FAKE1 (version m));
                    distribution :=
                      PatchedDistribution FAKE2
                        (PatchedDistribution FAKE1 (distribution m)) |}
    /\ forall m2, p2 = Some m2 ->
       forall name,
        registry_calls (fst (call_version reg (version m2) name)) <= 1
        /\ registry_calls (fst (call_distribution reg (distribution m2) name))
           <= 1
        /\ ((forall key, In key (dict_keys FAKE1 ++ dict_keys FAKE2) ->
                         normalize key <> normalize name) ->
            call_version reg (version m2) name
            = call_version reg (version m) name
            /\ call_distribution reg (distribution m2) name
               = call_distribution reg (distribution m) name).
Proof.
  intros Hp1 Hp2.
  destruct (patch_success _ _ _ _ _ _ Hp1) as (FAKE1 & m & Hl1 & -> & ->).
  destruct (patch_success _ _ _ _ _ _ Hp2) as (FAKE2 & m1 & Hl2 & [= <-] & ->).
  exists FAKE1, FAKE2, m. do 3 (split; [first [reflexivity | assumption]|]).
  split; [reflexivity|].
  intros m2 [= <-] name.
  split; [apply call_version_bounded|].
  split; [apply call_distribution_bounded|].
  intros Hno. simpl.
  assert (H1 : forall key, In key (dict_keys FAKE1) ->
                           normalize key <> normalize name)
    by (intros key Hk; apply Hno, in_or_app; auto).
  assert (H2 : forall key, In key (dict_keys FAKE2) ->
                           normalize key <> normalize name)
    by (intros key Hk; apply Hno, in_or_app; auto).
  rewrite (patched_version_no_match _ _ _ H2).
  rewrite (patched_version_no_match _ _ _ H1).
  rewrite (patched_distribution_no_match _ _ _ H2).
  rewrite (patched_distribution_no_match _ _ _ H1).
  split; reflexivity.
Qed.

Lemma second_patch_wraps_first_witness :
  call_version numpy_registry
    (PatchedVersion []
       (PatchedVersion
          [("torch", "1.0.0"); ("PIL", "9.5.0"); ("foo", "2.3.1");
           ("bar", "1.0.0")] MetadataVersion)) "numpy"
  = ([RegistryVersion "numpy"], Return "1.26.4").
Proof.
  destruct (@second_patch_wraps_first insertion_order unit numpy_registry
              sample_files (Some "nuitka_excludes.txt")
              (Some "requirements.txt") None None unpatched [] _ [] _
              eq_refl eq_refl)
    as (FAKE1 & FAKE2 & m & Hm & Hl1 & Hl2 & Hp2 & Hnames).
  injection Hm as <-. injection Hl1 as <-. injection Hl2 as <-.
  destruct (Hnames _ eq_refl "numpy") as (_ & _ & Hdel).
  refine (proj1 (Hdel _)).
  intros key Hin. vm_compute in Hin.
  destruct Hin as [<-|[<-|[<-|[<-|[]]]]]; vm_compute; discriminate.
Defined.

(** ** C10: patching without paths *)

(** C10: when [excludes_file] or [requirements_file] is [None], no file is
    read, FAKE_VERSIONS is empty, and on a process where the module can be
    imported the patch succeeds; every version and distribution lookup then
    has the events and the outcome of the original function, the one the
    module held before the call.  On a fresh process that is the real
    registry function. *)
Theorem no_paths_delegates `{SetOrder} {RealDistribution : Type}
    (reg : registry RealDistribution) (fs : filesystem)
    (excludes_file requirements_file : option string) (m : metadata_module) :
  excludes_file = None \/ requirements_file = None ->
  load_FAKE_VERSIONS fs excludes_file requirements_file = ([], Return [])
  /\ exists m',
      patch_importlib_metadata fs excludes_file requirements_file (Some m)
        = ([], Return (true, Some m'))
      /\ version m' = PatchedVersion [] (version m)
      /\ distribution m' = PatchedDistribution [] (distribution m)
      /\ forall name,
          call_version reg (version m') name
          = call_version reg (version m) name
          /\ call_distribution reg (distribution m') name
             = call_distribution reg (distribution m) name
          /\ (version m = MetadataVersion ->
              call_version reg (version m') name
              = ([RegistryVersion name], registry_version reg name)).
Proof.
  intros Hnone.
  assert (Hl : load_FAKE_VERSIONS fs excludes_file requirements_file
               = ([], Return [])).
  { destruct Hnone as [-> | ->]; [reflexivity|].
    destruct excludes_file; reflexivity. }
  split; [exact Hl|].
  unfold patch_importlib_metadata. rewrite Hl. simpl.
  eexists. split; [reflexivity|]. simpl. do 2 (split; [reflexivity|]).
  intros name. unfold patched_version, patched_distribution. simpl.
  rewrite try_except_reraise. do 2 (split; [reflexivity|]).
  intros ->. reflexivity.
Qed.

Lemma no_paths_delegates_witness :
  @load_FAKE_VERSIONS insertion_order sample_files
    (Some "nuitka_excludes.txt") None = ([], Return [])
  /\ exists m',
      @patch_importlib_metadata insertion_order sample_files
        (Some "nuitka_excludes.txt") None unpatched
        = ([], Return (true, Some m'))
      /\ version m' = PatchedVersion [] MetadataVersion
      /\ distribution m' = PatchedDistribution [] MetadataDistribution
      /\ forall name,
          call_version numpy_registry (version m') name
          = call_version numpy_registry MetadataVersion name
          /\ call_distribution numpy_registry (distribution m') name
             = call_distribution numpy_registry MetadataDistribution name
          /\ (MetadataVersion = MetadataVersion ->
              call_version numpy_registry (version m') name
              = ([RegistryVersion name],
                 registry_version numpy_registry name)).
Proof.
  apply (@no_paths_delegates insertion_order unit numpy_registry sample_files
           (Some "nuitka_excludes.txt") None
           {| version := MetadataVersion;
              distribution := MetadataDistribution |}).
  right. reflexivity.
Defined.

(** An empty path is as good as none: the test of line 67 is on the truth
    value of the arguments. *)
Lemma empty_path_loads_nothing `{SetOrder} (fs : filesystem)
    (excludes_file requirements_file : option string) :
  arg_truthy excludes_file = false \/ arg_truthy requirements_file = false ->
  load_FAKE_VERSIONS fs excludes_file requirements_file = ([], Return []).
Proof.
  unfold load_FAKE_VERSIONS.
  destruct excludes_file as [e|], requirements_file as [r|]; try reflexivity.
  simpl. intros [-> | ->]; [reflexivity | now rewrite andb_false_r].
Qed.

(** Without the module the patch reports failure and changes nothing. *)
Lemma patch_without_module `{SetOrder} (fs : filesystem)
    (excludes_file requirements_file : option string) tr FAKE_VERSIONS :
  load_FAKE_VERSIONS fs excludes_file requirements_file
    = (tr, Return FAKE_VERSIONS) ->
  patch_importlib_metadata fs excludes_file requirements_file None
    = (tr, Return (false, None)).
Proof.
  intros Hl. unfold patch_importlib_metadata. rewrite Hl. simpl.
  now rewrite app_nil_r.
Qed.

(** * Further properties of the code *)

(** ** The shape of the returned dictionary *)

Lemma dict_keys_set (d : dict) k v :
  dict_keys (dict_set d k v) =
  if dict_contains d k then dict_keys d else dict_keys d ++ [k].
Proof.
  unfold dict_contains. induction d as [|[k0 v0] d IH]; simpl.
  - reflexivity.
  - destruct (String.eqb k k0) eqn:E; simpl; [reflexivity|].
    rewrite IH. destruct (dict_get d k); reflexivity.
Qed.

Lemma dict_set_keys_NoDup (d : dict) k v :
  NoDup (dict_keys d) -> NoDup (dict_keys (dict_set d k v)).
Proof.
  intros Hd. rewrite dict_keys_set.
  destruct (dict_contains d k) eqn:Ec; [exact Hd|].
  apply (Permutation_NoDup (Permutation_cons_append (dict_keys d) k)).
  constructor; [|exact Hd].
  intros Hin. apply dict_get_In_keys, dict_contains_true in Hin. congruence.
Qed.

Lemma fake_versions_loop_NoDup (f : string -> string) (ps : list string)
    (d0 : dict) :
  NoDup (dict_keys d0) ->
  NoDup (dict_keys (fold_left (fun fv p => dict_set fv p (f p)) ps d0)).
Proof.
  revert d0. induction ps as [|p ps IH]; intros d0 Hd; simpl.
  - exact Hd.
  - apply IH. now apply dict_set_keys_NoDup.
Qed.

Lemma build_fake_versions_NoDup `{SetOrder} (X : pyset) (pv : dict) tr fake :
  build_fake_versions X pv = (tr, Return fake) -> NoDup (dict_keys fake).
Proof.
  unfold build_fake_versions, dict_contains, dict_getitem.
  set (loop := fold_left _ _ _).
  assert (Hloop : NoDup (dict_keys loop))
    by (apply fake_versions_loop_NoDup; constructor).
  destruct (dict_get pv "pillow") as [vp|];
    destruct (dict_get pv "scikit-learn") as [vs|]; simpl;
    intros [= _ <-]; repeat apply dict_set_keys_NoDup; exact Hloop.
Qed.

(** X1: the keys of the returned dictionary are the names of the Exclusion
    Set, PIL when pillow is pinned and sklearn when scikit-learn is pinned,
    and nothing else: no other line of the requirements file adds a key. *)
Theorem fake_versions_keys `{SetOrder} (fs : filesystem)
    (excludes_file requirements_file : string) :
  quiet (open fs (Path fs excludes_file)) = true ->
  quiet (open fs (Path fs requirements_file)) = true ->
  exists tr fake,
    load_exclude_packages_and_versions fs excludes_file requirements_file
      = (tr, Return fake)
    /\ forall k,
        In k (dict_keys fake) <->
        In k (exclusion_set (open fs (Path fs excludes_file)))
        \/ (k = "PIL"
            /\ dict_contains
                 (version_table (open fs (Path fs requirements_file)))
                 "pillow" = true)
        \/ (k = "sklearn"
            /\ dict_contains
                 (version_table (open fs (Path fs requirements_file)))
                 "scikit-learn" = true).
Proof.
  intros Hex Hreq.
  destruct (load_quiet fs excludes_file requirements_file Hex Hreq)
    as (fake & Hload & Hk).
  eexists; exists fake. split; [exact Hload|].
  intros k. rewrite dict_get_In_keys, Hk. unfold built_entry.
  set (X := exclusion_set _). set (pv := version_table _).
  rewrite <- (set_contains_In X k).
  assert (Hsome : forall v : string, exists v', Some v = Some v') by eauto.
  destruct (String.eqb_spec k "sklearn") as [->|Hs];
    [|destruct (String.eqb_spec k "PIL") as [->|Hp]]; simpl.
  - destruct (dict_contains pv "scikit-learn") eqn:Es.
    + apply dict_contains_true in Es. destruct Es as [v ->].
      split; [auto 6 | auto].
    + destruct (set_contains X "sklearn"); split; auto.
      * intros [v Hv]. discriminate Hv.
      * intros [Hf|[[Hf _]|[_ Hf]]]; discriminate Hf.
  - destruct (dict_contains pv "pillow") eqn:Ep.
    + apply dict_contains_true in Ep. destruct Ep as [v ->].
      split; [auto 6 | auto].
    + destruct (set_contains X "PIL"); split; auto.
      * intros [v Hv]. discriminate Hv.
      * intros [Hf|[[_ Hf]|[Hf _]]]; discriminate Hf.
  - destruct (set_contains X k); split; auto.
    + intros [v Hv]. discriminate Hv.
    + intros [Hf|[[Hf _]|[Hf _]]]; [discriminate Hf | contradiction..].
Qed.

Lemma fake_versions_keys_witness :
  exists tr fake,
    @load_exclude_packages_and_versions insertion_order sample_files
      "nuitka_excludes.txt" "requirements.txt" = (tr, Return fake)
    /\ ~ In "numpy" (dict_keys fake).
Proof.
  destruct (@fake_versions_keys insertion_order sample_files
              "nuitka_excludes.txt" "requirements.txt" eq_refl eq_refl)
    as (tr & fake & Hload & Hkeys).
  exists tr, fake. split; [exact Hload|].
  intros Hin. apply Hkeys in Hin. vm_compute in Hin.
  destruct Hin as [[E|[E|[E|[E|[]]]]]|[[E _]|[E _]]]; discriminate E.
Defined.

(** X3: the order in which the set of excluded names is visited changes
    neither the warnings, nor the exception, nor the content of the returned
    dictionary: two orders give the same keys, up to their order, and the same
    value for every key. *)
Theorem fake_versions_order_independent (O1 O2 : SetOrder) (fs : filesystem)
    (excludes_file requirements_file : string) :
  fst (@load_exclude_packages_and_versions O1 fs excludes_file
         requirements_file)
  = fst (@load_exclude_packages_and_versions O2 fs excludes_file
           requirements_file)
  /\ match snd (@load_exclude_packages_and_versions O1 fs excludes_file
                  requirements_file),
           snd (@load_exclude_packages_and_versions O2 fs excludes_file
                  requirements_file) with
     | Return d1, Return d2 =>
         (forall k, dict_get d1 k = dict_get d2 k)
         /\ Permutation (dict_keys d1) (dict_keys d2)
     | Raise e1, Raise e2 => e1 = e2
     | _, _ => False
     end.
Proof.
  unfold load_exclude_packages_and_versions, bind.
  destruct (load_or_warn fs _ excludes_line []) as [t1 [X|x]];
    [|split; reflexivity].
  destruct (load_or_warn fs _ requirements_line []) as [t2 [pv|x]];
    [|split; reflexivity].
  destruct (@build_fake_versions_spec O1 X pv) as (d1 & Hb1 & H1).
  destruct (@build_fake_versions_spec O2 X pv) as (d2 & Hb2 & H2).
  pose proof (@build_fake_versions_NoDup O1 _ _ _ _ Hb1) as N1.
  pose proof (@build_fake_versions_NoDup O2 _ _ _ _ Hb2) as N2.
  rewrite Hb1, Hb2. simpl. split; [reflexivity|].
  assert (Hsame : forall k, dict_get d1 k = dict_get d2 k)
    by (intros k; now rewrite H1, H2).
  split; [exact Hsame|].
  apply NoDup_Permutation; [exact N1 | exact N2|].
  intros k. rewrite !dict_get_In_keys, Hsame. reflexivity.
Qed.

(** ** Missing and empty sources *)

Lemma set_iter_nil `{SetOrder} : set_iter [] = [].
Proof.
  apply Permutation_nil, Permutation_sym, set_iter_perm.
Qed.

(** X4: when both files are missing, the function prints the two warnings,
    the one for the excludes file first, and returns the empty dictionary. *)
Theorem both_sources_missing `{SetOrder} (fs : filesystem)
    (excludes_file requirements_file : string) :
  open fs (Path fs excludes_file) = OpenRaises FileNotFoundError ->
  open fs (Path fs requirements_file) = OpenRaises FileNotFoundError ->
  load_exclude_packages_and_versions fs excludes_file requirements_file
  = ([Print ("Warning: " ++ Path fs excludes_file ++ " not found");
      Print ("Warning: " ++ Path fs requirements_file ++ " not found")],
     Return []).
Proof.
  intros Hex Hreq.
  unfold load_exclude_packages_and_versions, load_or_warn.
  rewrite Hex. simpl. rewrite Hreq. simpl.
  unfold build_fake_versions. rewrite set_iter_nil. reflexivity.
Qed.

Lemma both_sources_missing_witness :
  @load_exclude_packages_and_versions reverse_order both_missing
    "nuitka_excludes.txt" "requirements.txt"
  = ([Print "Warning: nuitka_excludes.txt not found";
      Print "Warning: requirements.txt not found"], Return []).
Proof.
  apply (@both_sources_missing reverse_order both_missing
           "nuitka_excludes.txt" "requirements.txt"); reflexivity.
Defined.

(** X5: when the requirements file pins nothing (it is missing, empty, or
    holds no line with [==]), the dictionary maps every excluded name to
    ["1.0.0"] and has no other key. *)
Theorem no_pins_all_default `{SetOrder} (fs : filesystem)
    (excludes_file requirements_file : string) :
  quiet (open fs (Path fs excludes_file)) = true ->
  quiet (open fs (Path fs requirements_file)) = true ->
  version_table (open fs (Path fs requirements_file)) = [] ->
  exists tr fake,
    load_exclude_packages_and_versions fs excludes_file requirements_file
      = (tr, Return fake)
    /\ forall k,
        dict_get fake k =
        if set_contains (exclusion_set (open fs (Path fs excludes_file))) k
        then Some "1.0.0" else None.
Proof.
  intros Hex Hreq Hpv.
  destruct (load_quiet fs excludes_file requirements_file Hex Hreq)
    as (fake & Hload & Hk).
  eexists; exists fake. split; [exact Hload|].
  intros k. rewrite Hk, Hpv. unfold built_entry, choose_version. simpl.
  rewrite !andb_false_r.
  destruct (set_contains _ k); [|reflexivity].
  destruct (String.eqb k "PIL"); [reflexivity|].
  destruct (String.eqb k "sklearn"); reflexivity.
Qed.

Lemma no_pins_all_default_witness :
  exists tr fake,
    @load_exclude_packages_and_versions insertion_order no_pins
      "nuitka_excludes.txt" "requirements.txt" = (tr, Return fake)
    /\ dict_get fake "PIL" = Some "1.0.0"
    /\ dict_get fake "numpy" = None.
Proof.
  destruct (@no_pins_all_default insertion_order no_pins
              "nuitka_excludes.txt" "requirements.txt" eq_refl eq_refl eq_refl)
    as (tr & fake & Hload & Hk).
  exists tr, fake. split; [exact Hload|].
  split; rewrite Hk; reflexivity.
Defined.

(** ** The excludes file *)

Lemma truthy_nonempty (s : string) : Str.truthy s = true <-> s <> "".
Proof. destruct s; simpl; split; congruence. Qed.

Lemma set_add_In (s : pyset) (x y : string) :
  In x (set_add s y) <-> In x s \/ x = y.
Proof.
  unfold set_add. destruct (set_contains s y) eqn:Ec.
  - apply set_contains_In in Ec. split; [auto | intros [?| ->]; assumption].
  - rewrite in_app_iff. simpl. split; intros [?|?]; auto.
    + destruct H as [<-|[]]. auto.
Qed.

Lemma set_add_NoDup (s : pyset) (y : string) : NoDup s -> NoDup (set_add s y).
Proof.
  intros Hs. unfold set_add. destruct (set_contains s y) eqn:Ec; [exact Hs|].
  apply (Permutation_NoDup (Permutation_cons_append s y)).
  constructor; [|exact Hs].
  intros Hin. apply set_contains_In in Hin. congruence.
Qed.

Lemma excludes_loop_In (lines : list string) (s : pyset) (name : string) :
  In name (fst (for_each excludes_line lines s)) <->
  In name s
  \/ exists line,
       In line lines /\ Str.strip line = name
       /\ name <> "" /\ Str.startswith "#" name = false.
Proof.
  revert s. induction lines as [|l lines IH]; intros s; simpl.
  - split; [auto | intros [?|(line & [] & _)]; assumption].
  - unfold excludes_line at 1.
    destruct (Str.truthy (Str.strip l)
              && negb (Str.startswith "#" (Str.strip l))) eqn:Ek;
      rewrite IH.
    + apply andb_true_iff in Ek. destruct Ek as [Ht Hs].
      apply truthy_nonempty in Ht. apply negb_true_iff in Hs.
      rewrite set_add_In. split.
      * intros [[?| ->]|(line & Hin & Hl)]; auto.
        -- right. exists l. auto.
        -- right. destruct Hl as (? & ? & ?). exists line. auto.
      * intros [?|(line & [<-|Hin] & Hl & Hne & Hst)]; auto.
        right. exists line. auto.
    + split.
      * intros [?|(line & Hin & Hl)]; auto. right. exists line. tauto.
      * intros [?|(line & [<-|Hin] & Hl & Hne & Hst)]; auto.
        -- subst name. apply truthy_nonempty in Hne.
           rewrite Hne, Hst in Ek. discriminate Ek.
        -- right. exists line. auto.
Qed.

Lemma excludes_loop_NoDup (lines : list string) (s : pyset) :
  NoDup s -> NoDup (fst (for_each excludes_line lines s)).
Proof.
  revert s. induction lines as [|l lines IH]; intros s Hs; simpl.
  - exact Hs.
  - unfold excludes_line at 1.
    destruct (_ && _); apply IH; [now apply set_add_NoDup | exact Hs].
Qed.

(** X6: the Exclusion Set of a readable excludes file holds exactly the
    trimmed text of its lines that are neither blank nor comments, each once:
    a name listed on several lines is kept once. *)
Theorem exclusion_set_members (lines : list string) :
  NoDup (exclusion_set (Readable lines))
  /\ forall name,
      In name (exclusion_set (Readable lines)) <->
      exists line,
        In line lines /\ Str.strip line = name
        /\ name <> "" /\ Str.startswith "#" name = false.
Proof.
  unfold exclusion_set. simpl. split.
  - apply excludes_loop_NoDup. constructor.
  - intros name. rewrite excludes_loop_In. simpl. tauto.
Qed.

(** X7: an exception leaves the function only if one of the two files
    raised it, and it is never FileNotFoundError; splitting a line and reading
    the table raise nothing (no ValueError, no KeyError). *)
Theorem only_source_failures_escape `{SetOrder} (fs : filesystem)
    (excludes_file requirements_file : string) tr (x : exn) :
  load_exclude_packages_and_versions fs excludes_file requirements_file
    = (tr, Raise x) ->
  is_FileNotFoundError x = false
  /\ (failure (open fs (Path fs excludes_file)) = Some x
      \/ failure (open fs (Path fs requirements_file)) = Some x).
Proof.
  unfold load_exclude_packages_and_versions.
  rewrite (load_or_warn_spec _ excludes_line_total).
  rewrite (load_or_warn_spec _ requirements_line_total).
  destruct (failure (open fs (Path fs excludes_file))) as [e1|];
    [destruct (is_FileNotFoundError e1) eqn:E1|];
    (destruct (failure (open fs (Path fs requirements_file))) as [e2|];
     [destruct (is_FileNotFoundError e2) eqn:E2|]);
    unfold bind;
    try (destruct (build_fake_versions_spec
                     (fst (with_open_for (open fs (Path fs excludes_file))
                             excludes_line []))
                     (fst (with_open_for (open fs (Path fs requirements_file))
                             requirements_line [])))
           as (fake & -> & _));
    simpl; intros Hr; inversion Hr; subst; auto.
Qed.

Lemma only_source_failures_escape_witness :
  is_FileNotFoundError UnicodeDecodeError = false
  /\ (failure (open requirements_unreadable "nuitka_excludes.txt")
        = Some UnicodeDecodeError
      \/ failure (open requirements_unreadable "requirements.txt")
         = Some UnicodeDecodeError).
Proof.
  exact (@only_source_failures_escape insertion_order requirements_unreadable
           "nuitka_excludes.txt" "requirements.txt" [] UnicodeDecodeError
           eq_refl).
Defined.

(** ** The requirements file *)

Lemma split1_first (a b : string) :
  no_equals_sign a = true ->
  Str.contains "==" (a ++ "==" ++ b) = true
  /\ Str.split1 "==" (a ++ "==" ++ b) = [a; b].
Proof.
  unfold no_equals_sign. induction a as [|c a IH]; intros Ha.
  - assert (Hp : String.prefix "==" ("==" ++ b) = true)
      by (destruct b; vm_compute; reflexivity).
    change ("" ++ "==" ++ b)%string with ("==" ++ b)%string.
    rewrite contains_unfold, split1_unfold, Hp. split; reflexivity.
  - simpl in Ha. apply andb_true_iff in Ha. destruct Ha as [Hc Ha].
    destruct (IH Ha) as [IHc IHs].
    assert (Hp : String.prefix "==" (String c (a ++ "==" ++ b)) = false).
    { change (String.prefix "==" (String c (a ++ "==" ++ b)))
        with (if ascii_dec "="%char c
              then String.prefix "=" (a ++ "==" ++ b) else false).
      destruct (ascii_dec "="%char c) as [<-|_]; [|reflexivity].
      vm_compute in Hc. discriminate Hc. }
    split.
    + change (String c a ++ "==" ++ b)%string
        with (String c (a ++ "==" ++ b)).
      rewrite contains_unfold, Hp. exact IHc.
    + change (String c a ++ "==" ++ b)%string
        with (String c (a ++ "==" ++ b)).
      rewrite split1_unfold, Hp, IHs. reflexivity.
Qed.

(** X8: a requirements line whose trimmed text is [name==version], with no
    [=] in the name part and not starting with [#], is entered in the Version
    Table under the trimmed name with the trimmed version: blanks around the
    name, around the version and around the line do not count. *)
Theorem pinned_line_entered (line a b : string) (package_versions : dict) :
  Str.strip line = (a ++ "==" ++ b)%string ->
  no_equals_sign a = true ->
  Str.startswith "#" (Str.strip line) = false ->
  requirements_line package_versions line
  = Return (dict_set package_versions (Str.strip a) (Str.strip b)).
Proof.
  intros Hl Ha Hs. unfold requirements_line. rewrite Hs, Hl.
  destruct (split1_first a b Ha) as [-> ->].
  destruct a; reflexivity.
Qed.

Lemma pinned_line_entered_witness :
  requirements_line [("torch", "2.1.0")] (ln "  pillow == 9.5.0 ")
  = Return [("torch", "2.1.0"); ("pillow", "9.5.0")].
Proof.
  apply (pinned_line_entered (ln "  pillow == 9.5.0 ") "pillow " " 9.5.0"
           [("torch", "2.1.0")]); reflexivity.
Defined.

Lemma last_pin_wins_witness :
  dict_get
    (version_table
       (Readable ([ln "pillow==9.0.0"; ln "torch==2.1.0"]
                    ++ ln "pillow==9.5.0" :: [ln "numpy==1.26.4"])))
    "pillow" = Some "9.5.0".
Proof.
  apply (last_pin_wins "pillow" "9.5.0" (ln "pillow==9.5.0")
           [ln "pillow==9.0.0"; ln "torch==2.1.0"] [ln "numpy==1.26.4"]).
  - intros pv. reflexivity.
  - intros l [<-|[]] pv. eexists. split; [reflexivity|].
    apply dict_get_set_ne. discriminate.
Defined.

(** X9: an excluded name other than PIL and sklearn is never given an empty
    version: an empty pin counts as no pin and the default is used. *)
Theorem excluded_version_not_empty `{SetOrder} (fs : filesystem)
    (excludes_file requirements_file : string) (name : string) :
  quiet (open fs (Path fs excludes_file)) = true ->
  quiet (open fs (Path fs requirements_file)) = true ->
  In name (exclusion_set (open fs (Path fs excludes_file))) ->
  name <> "PIL" -> name <> "sklearn" ->
  exists tr fake v,
    load_exclude_packages_and_versions fs excludes_file requirements_file
      = (tr, Return fake)
    /\ dict_get fake name = Some v /\ v <> "".
Proof.
  intros Hex Hreq Hin Hp Hs.
  destruct (load_quiet fs excludes_file requirements_file Hex Hreq)
    as (fake & Hload & Hk).
  eexists; exists fake; eexists. split; [exact Hload|].
  rewrite Hk, (built_entry_excluded _ _ _ Hin). split; [reflexivity|].
  unfold resolved_version.
  rewrite (eqb_neq_false _ _ Hp), (eqb_neq_false _ _ Hs).
  destruct (dict_get _ name) as [v|]; [|discriminate].
  destruct (Str.truthy v) eqn:Ev; [|discriminate].
  now apply truthy_nonempty.
Qed.

Lemma excluded_version_not_empty_witness :
  exists tr fake v,
    @load_exclude_packages_and_versions insertion_order blank_version
      "nuitka_excludes.txt" "requirements.txt" = (tr, Return fake)
    /\ dict_get fake "foo" = Some v /\ v <> "".
Proof.
  apply (@excluded_version_not_empty insertion_order blank_version
           "nuitka_excludes.txt" "requirements.txt" "foo");
    try reflexivity.
  - left. reflexivity.
  - discriminate.
  - discriminate.
Defined.

(** ** The fake distribution record *)

Lemma fake_distribution_fields (name ver : string) :
  FakeDistributionMethods.name (create_fake_distribution name ver) = name
  /\ FakeDistributionMethods.version (create_fake_distribution name ver) = ver
  /\ FakeDistributionMethods.getitem (create_fake_distribution name ver) "Name"
     = Some name
  /\ FakeDistributionMethods.getitem (create_fake_distribution name ver)
       "Version" = Some ver
  /\ forall key, key <> "Name" -> key <> "Version" ->
       FakeDistributionMethods.getitem (create_fake_distribution name ver) key
       = None.
Proof.
  do 4 (split; [reflexivity|]). intros key Hn Hv.
  unfold FakeDistributionMethods.getitem, create_fake_distribution. simpl.
  now rewrite (eqb_neq_false _ _ Hn), (eqb_neq_false _ _ Hv).
Qed.

(** X10: after a successful patch, the distribution lookup of a key of
    FAKE_VERSIONS runs nothing of the real registry and returns a fake record
    that carries the requested name and the stored version, both as
    properties and under the fields [Name] and [Version]; any other field of
    the record is [None]. *)
Theorem fake_distribution_for_key `{SetOrder} {RealDistribution : Type}
    (reg : registry RealDistribution) (fs : filesystem)
    (excludes_file requirements_file : option string) (p : process) tr p' :
  patch_importlib_metadata fs excludes_file requirements_file p
    = (tr, Return (true, p')) ->
  exists FAKE_VERSIONS m',
    load_FAKE_VERSIONS fs excludes_file requirements_file
      = (tr, Return FAKE_VERSIONS)
    /\ p' = Some m'
    /\ forall name v,
        dict_get FAKE_VERSIONS name = Some v ->
        exists d,
          call_distribution reg (distribution m') name = ([], Return (Fake d))
          /\ FakeDistributionMethods.name d = name
          /\ FakeDistributionMethods.version d = v
          /\ FakeDistributionMethods.getitem d "Name" = Some name
          /\ FakeDistributionMethods.getitem d "Version" = Some v
          /\ forall key, key <> "Name" -> key <> "Version" ->
               FakeDistributionMethods.getitem d key = None.
Proof.
  intros Hp. destruct (patch_success _ _ _ _ _ _ Hp) as (FAKE & m & Hl & -> & ->).
  eexists FAKE, _. split; [exact Hl|]. split; [reflexivity|].
  intros name v Hv. exists (create_fake_distribution name v). simpl.
  split; [now apply patched_distribution_exact|].
  apply fake_distribution_fields.
Qed.

Lemma fake_distribution_for_key_witness :
  exists d,
    call_distribution empty_registry
      (PatchedDistribution
         [("torch", "1.0.0"); ("PIL", "9.5.0"); ("foo", "2.3.1");
          ("bar", "1.0.0")] MetadataDistribution) "PIL"
    = ([], Return (Fake d))
    /\ FakeDistributionMethods.getitem d "Version" = Some "9.5.0".
Proof.
  destruct (@fake_distribution_for_key insertion_order unit empty_registry
              sample_files (Some "nuitka_excludes.txt")
              (Some "requirements.txt") unpatched _ _ eq_refl)
    as (FAKE & m' & Hl & Hm' & Hnames).
  injection Hl as <-. injection Hm' as <-.
  destruct (Hnames "PIL" "9.5.0" eq_refl) as (d & Hd & _ & _ & _ & Hv & _).
  exists d. split; [exact Hd | exact Hv].
Defined.

(** X11: after a successful patch, the distribution of a name that matches
    no key of FAKE_VERSIONS, exactly or after normalization, is looked up by
    the original function, with its events and its outcome; no handler stands
    between, so on a fresh process the caller gets the real distribution or
    the exception of the registry. *)
Theorem unknown_distribution_delegates `{SetOrder} {RealDistribution : Type}
    (reg : registry RealDistribution) (fs : filesystem)
    (excludes_file requirements_file : option string) (p : process) tr p' :
  patch_importlib_metadata fs excludes_file requirements_file p
    = (tr, Return (true, p')) ->
  exists FAKE_VERSIONS m m',
    load_FAKE_VERSIONS fs excludes_file requirements_file
      = (tr, Return FAKE_VERSIONS)
    /\ p = Some m /\ p' = Some m'
    /\ forall name,
        (forall key, In key (dict_keys FAKE_VERSIONS) ->
                     normalize key <> normalize name) ->
        call_distribution reg (distribution m') name
        = call_distribution reg (distribution m) name
        /\ (distribution m = MetadataDistribution ->
            (forall d, registry_distribution reg name = Return d ->
               call_distribution reg (distribution m') name
               = ([RegistryDistribution name], Return (Real d)))
            /\ (forall e, registry_distribution reg name = Raise e ->
                  call_distribution reg (distribution m') name
                  = ([RegistryDistribution name], Raise e))).
Proof.
  intros Hp. destruct (patch_success _ _ _ _ _ _ Hp) as (FAKE & m & Hl & -> & ->).
  eexists FAKE, m, _. split; [exact Hl|]. do 2 (split; [reflexivity|]).
  intros name Hno. simpl.
  rewrite (patched_distribution_no_match _ _ _ Hno).
  split; [reflexivity|]. intros ->. simpl.
  split; [intros d Hd | intros e He]; [rewrite Hd | rewrite He]; reflexivity.
Qed.

Lemma unknown_distribution_delegates_witness :
  call_distribution numpy_registry
    (PatchedDistribution
       [("torch", "1.0.0"); ("PIL", "9.5.0"); ("foo", "2.3.1"); ("bar", "1.0.0")]
       MetadataDistribution) "numpy"
  = ([RegistryDistribution "numpy"], Return (Real tt)).
Proof.
  destruct (@unknown_distribution_delegates insertion_order unit numpy_registry
              sample_files (Some "nuitka_excludes.txt")
              (Some "requirements.txt") unpatched _ _ eq_refl)
    as (FAKE & m & m' & Hl & Hm & Hm' & Hnames).
  injection Hl as <-. injection Hm as <-. injection Hm' as <-.
  refine (proj1 (proj2 (Hnames "numpy" _) eq_refl) tt eq_refl).
  intros key Hin. vm_compute in Hin.
  destruct Hin as [<-|[<-|[<-|[<-|[]]]]]; vm_compute; discriminate.
Defined.

(** ** The result of the patch *)

(** X12: when the patch returns, its result tells whether the module could
    be imported: it is [False] exactly when it could not, and then the process
    is left as it was. *)
Theorem patch_reports_module `{SetOrder} (fs : filesystem)
    (excludes_file requirements_file : option string) (p : process)
    tr (b : bool) p' :
  patch_importlib_metadata fs excludes_file requirements_file p
    = (tr, Return (b, p')) ->
  (b = false <-> p = None) /\ (b = false -> p' = p).
Proof.
  unfold patch_importlib_metadata, bind.
  destruct (load_FAKE_VERSIONS fs excludes_file requirements_file)
    as [tr0 [FAKE|e]]; [|discriminate].
  destruct (install FAKE p) as [tr1 r] eqn:Ei.
  intros [= _ ->]. apply install_success in Ei.
  destruct p as [m|].
  - destruct Ei as (_ & -> & _). split; [split|]; discriminate.
  - destruct Ei as (_ & -> & ->). split; [split|]; reflexivity.
Qed.

Lemma patch_reports_module_witness :
  (false = false <-> @None metadata_module = None)
  /\ (false = false -> @None metadata_module = None).
Proof.
  exact (@patch_reports_module insertion_order sample_files
           (Some "nuitka_excludes.txt") (Some "requirements.txt") None
           [] false None eq_refl).
Defined.

(** X13: the two files are read before the module is imported and outside
    the [try]: an exception raised while reading them leaves
    [patch_importlib_metadata] as it is, whether or not the module can be
    imported, and nothing is installed. *)
Theorem patch_propagates_load_failure `{SetOrder} (fs : filesystem)
    (excludes_file requirements_file : string) (p : process) tr (x : exn) :
  Str.truthy excludes_file = true ->
  Str.truthy requirements_file = true ->
  load_exclude_packages_and_versions fs excludes_file requirements_file
    = (tr, Raise x) ->
  patch_importlib_metadata fs (Some excludes_file) (Some requirements_file) p
  = (tr, Raise x).
Proof.
  intros He Hr Hload. unfold patch_importlib_metadata, load_FAKE_VERSIONS.
  rewrite He, Hr. simpl. now rewrite Hload.
Qed.

Lemma patch_propagates_load_failure_witness :
  @patch_importlib_metadata insertion_order excludes_unreadable
    (Some "nuitka_excludes.txt") (Some "requirements.txt") None
  = ([], Raise PermissionError).
Proof.
  apply (@patch_propagates_load_failure insertion_order excludes_unreadable
           "nuitka_excludes.txt" "requirements.txt" None [] PermissionError);
    reflexivity.
Defined.

(** ** Patching again with the same files *)

Lemma patched_version_twice (FAKE_VERSIONS : dict)
    (original : string -> M string) (name : string) :
  patched_version FAKE_VERSIONS (patched_version FAKE_VERSIONS original) name
  = patched_version FAKE_VERSIONS original name.
Proof.
  unfold patched_version at 1.
  destruct (dict_contains FAKE_VERSIONS name) eqn:Ec.
  - unfold patched_version. now rewrite Ec.
  - destruct (first_normalized_key FAKE_VERSIONS (normalize name)) eqn:Ef.
    + unfold patched_version. now rewrite Ec, Ef.
    + apply try_except_reraise.
Qed.

Lemma patched_distribution_twice {RealDistribution : Type}
    (FAKE_VERSIONS : dict)
    (original : string -> M (distribution_object RealDistribution))
    (name : string) :
  patched_distribution FAKE_VERSIONS
    (patched_distribution FAKE_VERSIONS original) name
  = patched_distribution FAKE_VERSIONS original name.
Proof.
  unfold patched_distribution at 1.
  destruct (dict_contains FAKE_VERSIONS name) eqn:Ec.
  - unfold patched_distribution. now rewrite Ec.
  - destruct (first_normalized_key FAKE_VERSIONS (normalize name)) eqn:Ef.
    + unfold patched_distribution. now rewrite Ec, Ef.
    + reflexivity.
Qed.

(** X14: a second successful patch with the same files changes no answer:
    every version and distribution lookup has, after the second call, the
    events and the outcome it had after the first. *)
Theorem repatch_same_files_idempotent `{SetOrder} {RealDistribution : Type}
    (reg : registry RealDistribution) (fs : filesystem)
    (excludes_file requirements_file : option string) (p : process)
    tr1 m1 tr2 m2 :
  patch_importlib_metadata fs excludes_file requirements_file p
    = (tr1, Return (true, Some m1)) ->
  patch_importlib_metadata fs excludes_file requirements_file (Some m1)
    = (tr2, Return (true, Some m2)) ->
  forall name,
    call_version reg (version m2) name = call_version reg (version m1) name
    /\ call_distribution reg (distribution m2) name
       = call_distribution reg (distribution m1) name.
Proof.
  intros Hp1 Hp2.
  destruct (patch_success _ _ _ _ _ _ Hp1) as (F1 & m & Hl1 & -> & [= ->]).
  destruct (patch_success _ _ _ _ _ _ Hp2) as (F2 & m' & Hl2 & [= <-] & [= ->]).
  rewrite Hl1 in Hl2. injection Hl2 as _ <-.
  intros name. simpl.
  split; [apply patched_version_twice | apply patched_distribution_twice].
Qed.

Lemma repatch_same_files_idempotent_witness :
  call_version numpy_registry
    (PatchedVersion
       [("torch", "1.0.0"); ("PIL", "9.5.0"); ("foo", "2.3.1");
        ("bar", "1.0.0")]
       (PatchedVersion
          [("torch", "1.0.0"); ("PIL", "9.5.0"); ("foo", "2.3.1");
           ("bar", "1.0.0")] MetadataVersion)) "numpy"
  = call_version numpy_registry
      (PatchedVersion
         [("torch", "1.0.0"); ("PIL", "9.5.0"); ("foo", "2.3.1");
          ("bar", "1.0.0")] MetadataVersion) "numpy".
Proof.
  exact (proj1 (@repatch_same_files_idempotent insertion_order unit
                  numpy_registry sample_files (Some "nuitka_excludes.txt")
                  (Some "requirements.txt") unpatched [] _ [] _
                  eq_refl eq_refl "numpy")).
Defined.

(** ** From the two files to a lookup *)

(** X15: with two non-empty paths whose files are readable or missing and a
    module that can be imported, the patch succeeds, and afterwards the
    version of every name of the Exclusion Set is answered without the real
    registry: it is the version resolved from the Version Table, and the
    distribution lookup returns the fake record with the requested name and
    that version. *)
Theorem excluded_name_lookup `{SetOrder} {RealDistribution : Type}
    (reg : registry RealDistribution) (fs : filesystem)
    (excludes_file requirements_file : string) (m : metadata_module) :
  Str.truthy excludes_file = true ->
  Str.truthy requirements_file = true ->
  quiet (open fs (Path fs excludes_file)) = true ->
  quiet (open fs (Path fs requirements_file)) = true ->
  exists tr m',
    patch_importlib_metadata fs (Some excludes_file) (Some requirements_file)
      (Some m) = (tr, Return (true, Some m'))
    /\ forall name,
        In name (exclusion_set (open fs (Path fs excludes_file))) ->
        call_version reg (version m') name
        = ([], Return (resolved_version
                         (version_table (open fs (Path fs requirements_file)))
                         name))
        /\ call_distribution reg (distribution m') name
           = ([], Return
                    (Fake (create_fake_distribution name
                             (resolved_version
                                (version_table
                                   (open fs (Path fs requirements_file)))
                                name)))).
Proof.
  intros He Hr Hex Hreq.
  destruct (load_quiet fs excludes_file requirements_file Hex Hreq)
    as (fake & Hload & Hk).
  unfold patch_importlib_metadata, load_FAKE_VERSIONS.
  rewrite He, Hr. simpl. rewrite Hload. simpl.
  eexists; eexists. split; [reflexivity|].
  intros name Hin. simpl.
  assert (Hv : dict_get fake name =
               Some (resolved_version
                       (version_table (open fs (Path fs requirements_file)))
                       name))
    by (rewrite Hk; now apply built_entry_excluded).
  split; [now apply patched_version_exact
         | now apply patched_distribution_exact].
Qed.

Lemma excluded_name_lookup_witness :
  exists tr m',
    @patch_importlib_metadata insertion_order sample_files
      (Some "nuitka_excludes.txt") (Some "requirements.txt") unpatched
    = (tr, Return (true, Some m'))
    /\ call_version empty_registry (version m') "PIL" = ([], Return "9.5.0").
Proof.
  destruct (@excluded_name_lookup insertion_order unit empty_registry
              sample_files "nuitka_excludes.txt" "requirements.txt"
              {| version := MetadataVersion;
                 distribution := MetadataDistribution |}
              eq_refl eq_refl eq_refl eq_refl)
    as (tr & m' & Hp & Hnames).
  exists tr, m'. split; [exact Hp|].
  refine (proj1 (Hnames "PIL" _)). vm_compute. tauto.
Defined.

(** ** Normalized spellings *)

Lemma normalize_char_idempotent (c : ascii) :
  let f := fun c => if Ascii.eqb (Str.lower_char c) "-"%char then "_"%char
                    else Str.lower_char c in
  f (f c) = f c.
Proof.
  destruct c as [[] [] [] [] [] [] [] []]; vm_compute; reflexivity.
Qed.

Lemma normalize_idempotent (s : string) : normalize (normalize s) = normalize s.
Proof.
  unfold normalize, Str.replace_char, Str.lower.
  induction s as [|c s IH]; simpl; [reflexivity|].
  rewrite IH. f_equal. apply normalize_char_idempotent.
Qed.

(** X16: normalization is idempotent, so every key of FAKE_VERSIONS can be
    requested in its normalized spelling (lower case, [_] for [-]): the
    patched version lookup answers it from the dictionary, with the version of
    a key of that normalized form, whatever the original function does. *)
Theorem normalized_spelling_answered (FAKE_VERSIONS : dict)
    (original : string -> M string) (key : string) :
  In key (dict_keys FAKE_VERSIONS) ->
  normalize (normalize key) = normalize key
  /\ exists key' v,
      dict_get FAKE_VERSIONS key' = Some v
      /\ normalize key' = normalize key
      /\ patched_version FAKE_VERSIONS original (normalize key)
         = ([], Return v).
Proof.
  intros Hin. split; [apply normalize_idempotent|].
  destruct (answering_key_exists FAKE_VERSIONS (normalize key) key Hin
              (normalize_idempotent key)) as [key' Hk].
  destruct (@patched_lookups_answer unit FAKE_VERSIONS original
              (fun _ => raise ImportError) (normalize key) key' Hk)
    as (v & Hv & Hn & Hcv & _).
  exists key', v. rewrite normalize_idempotent in Hn. auto.
Qed.

Lemma normalized_spelling_answered_witness :
  exists key' v,
    dict_get [("Scikit-Learn", "1.3.0")] key' = Some v
    /\ normalize key' = normalize "Scikit-Learn"
    /\ patched_version [("Scikit-Learn", "1.3.0")]
         (fun name => raise (PackageNotFoundError name))
         (normalize "Scikit-Learn")
       = ([], Return v).
Proof.
  exact (proj2 (normalized_spelling_answered [("Scikit-Learn", "1.3.0")]
                  (fun name => raise (PackageNotFoundError name))
                  "Scikit-Learn" (or_introl eq_refl))).
Defined.

(** ** Empty paths *)

(** X17: an empty string as a path counts as no path: the test of line 67 is
    on the truth value of the arguments, so no file is read, nothing is
    printed, and the closures are installed over the empty dictionary. *)
Theorem empty_path_installs_empty `{SetOrder} (fs : filesystem)
    (excludes_file requirements_file : option string) (m : metadata_module) :
  arg_truthy excludes_file = false \/ arg_truthy requirements_file = false ->
  patch_importlib_metadata fs excludes_file requirements_file (Some m)
  = ([], Return (true,
                 Some {| version := PatchedVersion [] (version m);
                         distribution :=
                           PatchedDistribution [] (distribution m) |})).
Proof.
  intros Harg. unfold patch_importlib_metadata.
  assert (Hl : load_FAKE_VERSIONS fs excludes_file requirements_file
               = ([], Return [])).
  { unfold load_FAKE_VERSIONS.
    destruct excludes_file as [e|], requirements_file as [r|];
      try reflexivity.
    simpl in *. destruct Harg as [-> | ->];
      [reflexivity | now rewrite andb_false_r]. }
  rewrite Hl. reflexivity.
Qed.

Lemma empty_path_installs_empty_witness :
  @patch_importlib_metadata insertion_order excludes_unreadable
    (Some "") (Some "requirements.txt") unpatched
  = ([], Return (true,
                 Some {| version := PatchedVersion [] MetadataVersion;
                         distribution :=
                           PatchedDistribution [] MetadataDistribution |})).
Proof.
  apply (@empty_path_installs_empty insertion_order excludes_unreadable
           (Some "") (Some "requirements.txt")
           {| version := MetadataVersion;
              distribution := MetadataDistribution |}).
  left. reflexivity.
Defined.
